(** * Vapi assistant idle-message tool: a model of [main.py]

    The script resolves an API key, a base URL and an assistant id from the
    environment and the command line, picks one of three operations
    (list, get, update-idle), performs one HTTP call through [requests]
    and prints a report.  Below, the script is embedded function by
    function:

    - [os.environ] is a finite map from names to values, [sys.argv] a list;
    - a decoded JSON document is a [value], the Python object that
      [resp.json()] hands back;
    - [print] and the calls to [requests.get] / [requests.patch] are logged
      in a [world] threaded through a state-and-exception monad [M];
    - the remote service is an arbitrary function [remote] from the request
      to either a response or a raised transport exception.

    Python [str] objects are kept as their UTF-8 bytes. *)

From Stdlib Require Import ZArith String Ascii List.
From Stdlib Require Import Floats.SpecFloat.
From stdpp Require Import base option list strings gmap pretty.

Local Open Scope string_scope.
Local Open Scope Z_scope.

(** ** Python values *)

Module Py.

(** The objects [json.loads] can build, plus nothing else: the script never
    handles any other kind of object.  A [dict] keeps its items in insertion
    order, one item per key. *)
#[local] Unset Elimination Schemes.
Inductive value : Type :=
  | VNone
  | VBool (b : bool)
  | VInt (z : Z)
  | VFloat (f : spec_float)
  | VStr (s : string)
  | VList (items : list value)
  | VDict (items : list (string * value)).

#[local] Set Elimination Schemes.

(** The exceptions the script can raise; it catches none of them. *)
Inductive exn : Type :=
  | AttributeError
  | TypeError
  | JSONDecodeError
  | RequestException.

(** [bool(v)]. *)
Definition truthy (v : value) : bool :=
  match v with
  | VNone => false
  | VBool b => b
  | VInt z => negb (z =? 0)
  | VFloat f => match f with S754_zero _ => false | _ => true end
  | VStr s => negb (String.eqb s "")
  | VList items => match items with [] => false | _ => true end
  | VDict items => match items with [] => false | _ => true end
  end.

(** [a or b]. *)
Definition or_ (a b : value) : value := if truthy a then a else b.

(** [d.get(key)] on the items of a dict: [None] when the key is missing. *)
Fixpoint dict_get (key : string) (items : list (string * value)) : option value :=
  match items with
  | [] => None
  | (k, v) :: rest => if String.eqb k key then Some v else dict_get key rest
  end.

(** [isinstance(v, list)] and [isinstance(v, dict)]. *)
Definition is_list (v : value) : bool :=
  match v with VList _ => true | _ => false end.

Definition is_dict (v : value) : bool :=
  match v with VDict _ => true | _ => false end.

(** [s.rstrip('/')]: every trailing slash goes. *)
Fixpoint rstrip_slash (s : string) : string :=
  match s with
  | EmptyString => EmptyString
  | String c rest =>
      match rstrip_slash rest with
      | EmptyString => if Ascii.eqb c "/" then EmptyString else String c EmptyString
      | kept => String c kept
      end
  end.

(** [s * n]. *)
Fixpoint str_mul (s : string) (n : nat) : string :=
  match n with
  | O => ""
  | S n' => s ++ str_mul s n'
  end.

(** A byte that continues a UTF-8 sequence: [10xxxxxx]. *)
Definition continuation (c : ascii) : bool :=
  let n := N_of_ascii c in (128 <=? n)%N && (n <? 192)%N.

(** The characters of a [str], each as a one-character [str]: what
    [for ch in s] yields. *)
Fixpoint chars (s : string) : list string :=
  match s with
  | EmptyString => []
  | String c rest =>
      match chars rest with
      | [] => [String c EmptyString]
      | ch :: more =>
          match ch with
          | String c' _ =>
              if continuation c' then String c ch :: more
              else String c EmptyString :: ch :: more
          | EmptyString => String c EmptyString :: more
          end
      end
  end.

End Py.

Import Py.

(** ** The world: standard output and the HTTP calls made *)

(** One piece of an f-string: literal text, or a value formatted by
    [str()].  A printed text is the list of its pieces. *)
Inductive piece : Type :=
  | Lit (s : string)
  | Fmt (v : value).

Definition text := list piece.

Inductive verb : Type := GET | PATCH.

(** The arguments of one call to [requests.get] or [requests.patch]. *)
Record request : Type := Request {
  req_method : verb;
  req_url : string;
  req_headers : gmap string string;
  req_json : option value;
  req_timeout : Z
}.

(** What the script reads of a response: [resp.status_code], [resp.text]
    and [resp.json()], which is [None] when the body is not JSON and the
    call raises. *)
Record response : Type := Response {
  status_code : Z;
  resp_text : string;
  resp_json : option value
}.

Record world : Type := World {
  stdout : list text;
  calls : list request
}.

Definition quiet : world := World [] [].

(** ** State and exceptions *)

Inductive outcome (A : Type) : Type :=
  | Returned (a : A)
  | Raised (e : exn).
Arguments Returned {A} a.
Arguments Raised {A} e.

Definition M (A : Type) : Type := world -> outcome A * world.

#[global] Instance M_ret : MRet M := fun A a w => (Returned a, w).

#[global] Instance M_bind : MBind M := fun A B k m w =>
  match m w with
  | (Returned a, w') => k a w'
  | (Raised e, w') => (Raised e, w')
  end.

Definition raise {A : Type} (e : exn) : M A := fun w => (Raised e, w).

(** [print(t)]. *)
Definition print (t : text) : M unit := fun w =>
  (Returned tt, World (stdout w ++ [t]) (calls w)).

(** [for x in xs: body(x)]. *)
Fixpoint for_each {A : Type} (xs : list A) (body : A -> M unit) : M unit :=
  match xs with
  | [] => mret tt
  | x :: rest => body x ;; for_each rest body
  end.

(** [obj.get(key)] and [obj.get(key, default)]: only a dict has the
    method. *)
Definition get (obj : value) (key : string) (fallback : value) : M value :=
  match obj with
  | VDict items => mret (default fallback (dict_get key items))
  | _ => raise AttributeError
  end.

(** [getattr(obj, attr, None)] for an object that is not a dict: none of the
    other JSON types has a [name] or an [id] attribute. *)
Definition getattr_or_none (obj : value) (attr : string) : value := VNone.

(** [iter(v)], as a [for] statement uses it: the items of a list, the keys
    of a dict, the characters of a str; nothing else is iterable. *)
Definition iterate (v : value) : M (list value) :=
  match v with
  | VList items => mret items
  | VDict items => mret (map (fun kv => VStr (fst kv)) items)
  | VStr s => mret (map VStr (chars s))
  | _ => raise TypeError
  end.

(** [resp.json()]. *)
Definition json (resp : response) : M value :=
  match resp_json resp with
  | Some v => mret v
  | None => raise JSONDecodeError
  end.

(** [a or b], where evaluating [b] may raise. *)
Definition or_else (a : value) (b : M value) : M value :=
  if truthy a then mret a else b.

(** The line feed of a string literal. *)
Definition nl : string := String (ascii_of_nat 10) "".

(** ** Optional strings: [os.environ.get] and [sys.argv[i] if ... else None] *)

(** [not x] for an [Optional[str]]: [None] and the empty string are falsy. *)
Definition not_ (x : option string) : bool :=
  match x with
  | Some s => String.eqb s ""
  | None => true
  end.

(** [x or y] for two [Optional[str]]. *)
Definition or_str (x y : option string) : option string :=
  if not_ x then y else x.

(** The [str] behind an [Optional[str]] that passed a truth test. *)
Definition the (x : option string) : string := default "" x.

(** ** The script *)

Section Script.

(** The service behind [requests]: [None] is a call that raises (time-out,
    refused connection, malformed URL). *)
Variable remote : request -> option response.

(** [os.environ] once [load_dotenv()] has run, and [sys.argv]. *)
Variable environ : gmap string string.
Variable argv : list string.

Definition send (r : request) : M response := fun w =>
  let w' := World (stdout w) (calls w ++ [r]) in
  match remote r with
  | Some resp => (Returned resp, w')
  | None => (Raised RequestException, w')
  end.

(** [requests.get(url, headers=headers, timeout=timeout)]. *)
Definition requests_get (url : string) (headers : gmap string string)
    (timeout : Z) : M response :=
  send (Request GET url headers None timeout).

(** [requests.patch(url, headers=headers, json=body, timeout=timeout)]. *)
Definition requests_patch (url : string) (headers : gmap string string)
    (body : value) (timeout : Z) : M response :=
  send (Request PATCH url headers (Some body) timeout).

Definition usage_text : text :=
  [Lit ("Usage:" ++ nl ++
    "  List assistants:" ++ nl ++
    "    VAPI_API_KEY=... python main.py --list" ++ nl ++
    "    VAPI_API_KEY=... VAPI_LIST=1 python main.py" ++ nl ++
    "  Update assistant with idle messages:" ++ nl ++
    "    VAPI_API_KEY=... VAPI_ASSISTANT_ID=... python main.py --update-idle" ++ nl ++
    "  Get specific assistant details:" ++ nl ++
    "    VAPI_API_KEY=... VAPI_ASSISTANT_ID=... python main.py --get")].

Definition usage : M unit := print usage_text.

(** [print(f"Error {resp.status_code}: {resp.text}")]. *)
Definition error_text (resp : response) : text :=
  [Lit "Error "; Fmt (VInt (status_code resp)); Lit ": "; Fmt (VStr (resp_text resp))].

(** The body of the loop of [list_assistants]. *)
Definition show_assistant (assistant : value) : M unit :=
  name ← (if is_dict assistant then get assistant "name" VNone
          else mret (getattr_or_none assistant "name"));
  a_id ← (if is_dict assistant then get assistant "id" VNone
          else mret (getattr_or_none assistant "id"));
  print [Lit "Name: "; Fmt name];;
  print [Lit "ID:   "; Fmt a_id];;
  print [Lit (str_mul "-" 40)].

Definition list_assistants (api_key api_url : string) : M Z :=
  let url := rstrip_slash api_url ++ "/assistant" in
  let headers : gmap string string := {[ "Authorization" := "Bearer " ++ api_key ]} in
  resp ← requests_get url headers 30;
  if negb (status_code resp =? 200) then
    print (error_text resp);;
    mret 1
  else
    data ← json resp;
    assistants ←
      (if is_list data then mret data
       else
         a ← get data "assistants" VNone;
         b ← or_else a (get data "data" VNone);
         or_else b (mret (VList [])));
    print [Lit (nl ++ "=== Your Assistants ===")];;
    items ← iterate assistants;
    for_each items show_assistant;;
    mret 0.

Definition get_assistant (api_key api_url assistant_id : string) : M Z :=
  let url := rstrip_slash api_url ++ "/assistant/" ++ assistant_id in
  let headers : gmap string string := {[ "Authorization" := "Bearer " ++ api_key ]} in
  resp ← requests_get url headers 30;
  if negb (status_code resp =? 200) then
    print (error_text resp);;
    mret 1
  else
    assistant ← json resp;
    print [Lit (nl ++ "=== Assistant Details ===")];;
    name ← get assistant "name" VNone;
    print [Lit "Name: "; Fmt name];;
    a_id ← get assistant "id" VNone;
    print [Lit "ID: "; Fmt a_id];;
    silence ← get assistant "silenceTimeoutSeconds" (VInt 30);
    print [Lit "Silence Timeout: "; Fmt silence; Lit " seconds"];;
    message_plan ← get assistant "messagePlan" (VDict []);
    idle ← get message_plan "idleMessages" VNone;
    (if truthy idle then
       print [Lit (nl ++ "Idle Messages Configuration:")];;
       messages ← get message_plan "idleMessages" VNone;
       print [Lit "  Messages: "; Fmt messages];;
       timeout ← get message_plan "idleTimeoutSeconds" VNone;
       print [Lit "  Timeout: "; Fmt timeout; Lit " seconds"];;
       count ← get message_plan "idleMessageMaxSpokenCount" VNone;
       print [Lit "  Max Count: "; Fmt count]
     else
       print [Lit (nl ++ "⚠️  No idle messages configured")]);;
    mret 0.

Definition update_data : value :=
  VDict [
    ("messagePlan", VDict [
      ("idleMessages", VList [VStr "Are you still there?"]);
      ("idleTimeoutSeconds", VInt 10);
      ("idleMessageMaxSpokenCount", VInt 2);
      ("idleMessageResetCountOnUserSpeechEnabled", VBool true)
    ]);
    ("silenceTimeoutSeconds", VInt 30)
  ].

Definition update_assistant_idle_messages (api_key api_url assistant_id : string) : M Z :=
  let url := rstrip_slash api_url ++ "/assistant/" ++ assistant_id in
  let headers : gmap string string := {[
    "Authorization" := "Bearer " ++ api_key;
    "Content-Type" := "application/json"
  ]} in
  print [Lit (nl ++ "Updating assistant "); Fmt (VStr assistant_id);
         Lit " with idle messages..."];;
  resp ← requests_patch url headers update_data 30;
  if negb (status_code resp =? 200) then
    print (error_text resp);;
    mret 1
  else
    updated ← json resp;
    print [Lit "✅ Successfully updated assistant!"];;
    print [Lit "Timeline: 10s → First prompt, 20s → Second prompt, 30s → End call"];;
    mret 0.

(** [flag in sys.argv]. *)
Definition in_argv (flag : string) : bool := bool_decide (flag ∈ argv).

(** [os.environ.get("VAPI_LIST") in {"1", "true", "TRUE"}]. *)
Definition list_requested : bool :=
  match environ !! "VAPI_LIST" with
  | Some v => bool_decide (v ∈ ({[ "1"; "true"; "TRUE" ]} : gset string))
  | None => false
  end.

(** The three assignments that open [main]. *)
Definition api_key : option string :=
  or_str (environ !! "VAPI_API_KEY") (argv !! 1%nat).

Definition api_url : string :=
  default "https://api.vapi.ai" (environ !! "VAPI_API_URL").

Definition assistant_id : option string :=
  or_str (environ !! "VAPI_ASSISTANT_ID") (argv !! 2%nat).

Definition main : M Z :=
  if not_ api_key then
    print [Lit "❌ API key required"];;
    usage;;
    mret 2
  else if in_argv "--list" || list_requested || not_ assistant_id then
    list_assistants (the api_key) api_url
  else if in_argv "--get" then
    if not_ assistant_id then
      print [Lit "❌ VAPI_ASSISTANT_ID required"];;
      mret 2
    else
      get_assistant (the api_key) api_url (the assistant_id)
  else if in_argv "--update-idle" then
    if not_ assistant_id then
      print [Lit "❌ VAPI_ASSISTANT_ID required"];;
      print [Lit "First run with --list to find your assistant ID"];;
      mret 2
    else
      update_assistant_idle_messages (the api_key) api_url (the assistant_id)
  else if negb (not_ assistant_id) then
    get_assistant (the api_key) api_url (the assistant_id)
  else
    usage;;
    mret 2.

End Script.

(** [if __name__ == "__main__": raise SystemExit(main())]: the exit status
    of the process.  [SystemExit(code)] ends it with [code]; an exception
    that escapes [main] ends the interpreter with status 1. *)
Definition exit_status (o : outcome Z) : Z :=
  match o with
  | Returned code => code
  | Raised _ => 1
  end.

Definition script remote (environ : gmap string string) (argv : list string)
    : Z * world :=
  let (o, w) := main remote environ argv quiet in (exit_status o, w).


(** ** Vocabulary of the statements *)

(** [str(v)] for the values whose text needs no [repr]: enough to read the
    printed lines of the examples as plain strings. *)
Definition str_ (v : value) : option string :=
  match v with
  | VNone => Some "None"
  | VBool true => Some "True"
  | VBool false => Some "False"
  | VInt z => Some (pretty z)
  | VStr s => Some s
  | _ => None
  end.

Fixpoint render (t : text) : option string :=
  match t with
  | [] => Some ""
  | Lit s :: rest => r ← render rest; Some (s ++ r)
  | Fmt v :: rest => s ← str_ v; r ← render rest; Some (s ++ r)
  end.

(** What [list_assistants] reads of one entry: [entry.get(key)] for a dict,
    [None] for anything else. *)
Definition field (entry : value) (key : string) : value :=
  match entry with
  | VDict items => default VNone (dict_get key items)
  | _ => VNone
  end.

(** The three lines printed for one entry, and the whole listing. *)
Definition card (entry : value) : list text :=
  [ [Lit "Name: "; Fmt (field entry "name")];
    [Lit "ID:   "; Fmt (field entry "id")];
    [Lit "----------------------------------------"] ].

Definition listing (entries : list value) : list text :=
  [Lit (nl ++ "=== Your Assistants ===")] :: concat (card <$> entries).

(** The lines [get_assistant] prints before it looks at the message plan. *)
Definition details (items : list (string * value)) : list text :=
  [ [Lit (nl ++ "=== Assistant Details ===")];
    [Lit "Name: "; Fmt (default VNone (dict_get "name" items))];
    [Lit "ID: "; Fmt (default VNone (dict_get "id" items))];
    [Lit "Silence Timeout: ";
     Fmt (default (VInt 30) (dict_get "silenceTimeoutSeconds" items));
     Lit " seconds"] ].

Definition no_idle_notice : text :=
  [Lit (nl ++ "⚠️  No idle messages configured")].

Definition idle_block (plan : list (string * value)) : list text :=
  [ [Lit (nl ++ "Idle Messages Configuration:")];
    [Lit "  Messages: "; Fmt (default VNone (dict_get "idleMessages" plan))];
    [Lit "  Timeout: "; Fmt (default VNone (dict_get "idleTimeoutSeconds" plan));
     Lit " seconds"];
    [Lit "  Max Count: ";
     Fmt (default VNone (dict_get "idleMessageMaxSpokenCount" plan))] ].

(** The calls the three operations are expected to make. *)
Definition list_call (key url : string) : request :=
  Request GET (rstrip_slash url ++ "/assistant")
    {[ "Authorization" := "Bearer " ++ key ]} None 30.

Definition get_call (key url ident : string) : request :=
  Request GET (rstrip_slash url ++ "/assistant/" ++ ident)
    {[ "Authorization" := "Bearer " ++ key ]} None 30.

Definition patch_call (key url ident : string) : request :=
  Request PATCH (rstrip_slash url ++ "/assistant/" ++ ident)
    {[ "Authorization" := "Bearer " ++ key;
       "Content-Type" := "application/json" ]}
    (Some update_data) 30.

(** The operation [main] hands over to, read off its chain of tests;
    [None] when the API key is missing. *)
Inductive operation : Type := OpList | OpGet | OpUpdateIdle.

Definition selection (environ : gmap string string) (argv : list string)
    : option operation :=
  if not_ (api_key environ argv) then None
  else if in_argv argv "--list" || list_requested environ
          || not_ (assistant_id environ argv) then Some OpList
  else if in_argv argv "--get" then Some OpGet
  else if in_argv argv "--update-idle" then Some OpUpdateIdle
  else Some OpGet.

(** The operation as a computation, and the call it is expected to make. *)
Definition perform remote (op : operation) (key url ident : string) : M Z :=
  match op with
  | OpList => list_assistants remote key url
  | OpGet => get_assistant remote key url ident
  | OpUpdateIdle => update_assistant_idle_messages remote key url ident
  end.

Definition call_of (op : operation) (key url ident : string) : request :=
  match op with
  | OpList => list_call key url
  | OpGet => get_call key url ident
  | OpUpdateIdle => patch_call key url ident
  end.

(** What [main] does when the API key is missing. *)
Definition refuse : M Z :=
  print [Lit "❌ API key required"];;
  usage;;
  mret 2.

(** The condition under which [main] lists, in words of the environment
    and the arguments. *)
Definition list_condition (environ : gmap string string) (argv : list string) : Prop :=
  "--list" ∈ argv
  ∨ (∃ v, environ !! "VAPI_LIST" = Some v ∧ (v = "1" ∨ v = "true" ∨ v = "TRUE"))
  ∨ not_ (assistant_id environ argv) = true.

(** A computation that makes no HTTP call, and one whose exit codes all
    satisfy [P]. *)
Definition silent {A : Type} (m : M A) : Prop :=
  ∀ w, calls (m w).2 = calls w.

Definition exits {A : Type} (P : A → Prop) (m : M A) : Prop :=
  ∀ w a w', m w = (Returned a, w') → P a.

Definition zero_or_one (z : Z) : Prop := z = 0 ∨ z = 1.

(** A field of a JSON object that [or] skips: missing, or holding a falsy
    value ([null], [false], [0], an empty string, array or object). *)
Definition skipped (items : list (string * value)) (key : string) : Prop :=
  truthy (default VNone (dict_get key items)) = false.

(** [list_assistants] returns 0 after listing [entries]. *)
Definition lists remote (key url : string) (w : world) (entries : list value) : Prop :=
  list_assistants remote key url w =
  (Returned 0,
   World (stdout w ++ listing entries) (calls w ++ [list_call key url])).

(** The three response bodies of the listing example, decoded. *)
Definition entry_A : value := VDict [("name", VStr "A"); ("id", VStr "1")].
Definition body_assistants : value := VDict [("assistants", VList [entry_A])].
Definition body_data : value := VDict [("data", VList [entry_A])].
Definition body_bare : value := VList [entry_A].

(** Bodies with which an operation gets through a status 200: for the list
    an array, or an object in which the first truthy one of [assistants]
    and [data], or else the empty list, is an array; for the report an
    object whose [messagePlan] is missing or an object; for the update any
    JSON document. *)
Definition readable (op : operation) (resp : response) : Prop :=
  match op with
  | OpList =>
      ∃ entries,
        resp_json resp = Some (VList entries)
        ∨ ∃ items,
            resp_json resp = Some (VDict items)
            ∧ or_ (default VNone (dict_get "assistants" items))
                  (or_ (default VNone (dict_get "data" items)) (VList []))
              = VList entries
  | OpGet =>
      ∃ items plan,
        resp_json resp = Some (VDict items)
        ∧ default (VDict []) (dict_get "messagePlan" items) = VDict plan
  | OpUpdateIdle => ∃ updated, resp_json resp = Some updated
  end.

(** What [update_assistant_idle_messages] prints before its call; the other
    two operations print nothing before theirs. *)
Definition preamble (op : operation) (ident : string) : list text :=
  match op with
  | OpUpdateIdle =>
      [[Lit (nl ++ "Updating assistant "); Fmt (VStr ident);
        Lit " with idle messages..."]]
  | _ => []
  end.

(** A computation all of whose printed texts satisfy [P]. *)
Definition prints {A : Type} (P : text → Prop) (m : M A) : Prop :=
  ∀ w, ∃ new, stdout (m w).2 = (stdout w ++ new)%list ∧ Forall P new.

(** A text other than the two complaints about a missing assistant id and
    the usage text. *)
Definition report_line (t : text) : Prop :=
  t ≠ [Lit "❌ VAPI_ASSISTANT_ID required"]
  ∧ t ≠ [Lit "First run with --list to find your assistant ID"]
  ∧ t ≠ usage_text.

(** The path an operation appends to the base URL. *)
Definition endpoint (op : operation) (ident : string) : string :=
  match op with
  | OpList => "/assistant"
  | _ => "/assistant/" ++ ident
  end.

(** A service that answers every call with the same response. *)
Definition always (resp : response) : request → option response :=
  fun _ => Some resp.

(** * Properties *)

(** ** Helpers on strings *)

Example rstrip_slash_many : rstrip_slash "https://api.vapi.ai//" = "https://api.vapi.ai".
Proof. reflexivity. Qed.

Example rstrip_slash_inner : rstrip_slash "a/b/" = "a/b".
Proof. reflexivity. Qed.

Example chars_ascii : chars "ab" = ["a"; "b"].
Proof. reflexivity. Qed.

Example chars_utf8 : length (chars "a→b") = 3%nat.
Proof. reflexivity. Qed.


Example truthy_empty_list : truthy (VList []) = false.
Proof. reflexivity. Qed.

Example render_name : render [Lit "Name: "; Fmt (VStr "A")] = Some "Name: A".
Proof. reflexivity. Qed.

Example render_status : render [Lit "Error "; Fmt (VInt 404); Lit ": "; Fmt (VStr "gone")]
  = Some "Error 404: gone".
Proof. vm_compute. reflexivity. Qed.

Example str_mul_rule : str_mul "-" 40 = "----------------------------------------".
Proof. reflexivity. Qed.

(** ** The monad *)

Lemma bind_run {A B : Type} (m : M A) (k : A → M B) (w : world) :
  (m ≫= k) w =
  match m w with
  | (Returned a, w') => k a w'
  | (Raised e, w') => (Raised e, w')
  end.
Proof. reflexivity. Qed.

Lemma bind_ret {A B : Type} (a : A) (k : A → M B) (w : world) :
  (mret a ≫= k) w = k a w.
Proof. reflexivity. Qed.

Lemma bind_print {B : Type} (t : text) (k : unit → M B) (w : world) :
  (print t ≫= k) w = k tt (World (stdout w ++ [t]) (calls w)).
Proof. reflexivity. Qed.

Lemma bind_raise {A B : Type} (e : exn) (k : A → M B) (w : world) :
  (raise e ≫= k) w = (Raised e, w).
Proof. reflexivity. Qed.

Lemma bind_send {B : Type} remote (r : request) (k : response → M B) (w : world) :
  (send remote r ≫= k) w =
  match remote r with
  | Some resp => k resp (World (stdout w) (calls w ++ [r]))
  | None => (Raised RequestException, World (stdout w) (calls w ++ [r]))
  end.
Proof. unfold mbind, M_bind, send. by destruct (remote r). Qed.

(** ** Computations that make no call *)

Lemma silent_ret {A : Type} (a : A) : silent (mret a).
Proof. by intros w. Qed.

Lemma silent_raise {A : Type} (e : exn) : silent (raise (A:=A) e).
Proof. by intros w. Qed.

Lemma silent_print (t : text) : silent (print t).
Proof. by intros w. Qed.

Lemma silent_bind {A B : Type} (m : M A) (k : A → M B) :
  silent m → (∀ a, silent (k a)) → silent (m ≫= k).
Proof.
  intros Hm Hk w. rewrite bind_run. specialize (Hm w).
  destruct (m w) as [[a|e] w1]; simpl in *; [|done].
  by rewrite Hk.
Qed.

Lemma silent_get (obj : value) (key : string) (fallback : value) :
  silent (get obj key fallback).
Proof. destruct obj; first [apply silent_ret | apply silent_raise]. Qed.

Lemma silent_json (resp : response) : silent (json resp).
Proof. unfold json. destruct (resp_json resp); [apply silent_ret | apply silent_raise]. Qed.

Lemma silent_iterate (v : value) : silent (iterate v).
Proof. destruct v; first [apply silent_ret | apply silent_raise]. Qed.

Lemma silent_or_else (a : value) (b : M value) : silent b → silent (or_else a b).
Proof. intros Hb. unfold or_else. destruct (truthy a); [apply silent_ret | done]. Qed.

Lemma silent_usage : silent usage.
Proof. apply silent_print. Qed.

Create HintDb silent discriminated.
#[local] Hint Resolve silent_ret silent_raise silent_print silent_get silent_json
  silent_iterate silent_or_else silent_usage : silent.

(** Peel binds and conditionals off a goal [silent m]. *)
Ltac silence :=
  repeat first
    [ progress intros
    | apply silent_bind
    | match goal with
      | |- silent (if ?b then _ else _) => destruct b
      end
    | solve [eauto with silent] ].

Lemma silent_show_assistant (entry : value) : silent (show_assistant entry).
Proof. unfold show_assistant. silence. Qed.

Lemma silent_for_each {A : Type} (xs : list A) (body : A → M unit) :
  (∀ x, silent (body x)) → silent (for_each xs body).
Proof.
  intros Hbody. induction xs as [|x rest IH]; simpl.
  - apply silent_ret.
  - apply silent_bind; [apply Hbody | intros _; apply IH].
Qed.

#[local] Hint Resolve silent_show_assistant silent_for_each : silent.

(** ** Exit codes *)

Lemma exits_ret {A : Type} (P : A → Prop) (a : A) : P a → exits P (mret a).
Proof. intros HP w a' w' [= <- _]. done. Qed.

Lemma exits_raise {A : Type} (P : A → Prop) (e : exn) : exits P (raise e).
Proof. intros w a w' [=]. Qed.

Lemma exits_bind {A B : Type} (P : B → Prop) (m : M A) (k : A → M B) :
  (∀ a, exits P (k a)) → exits P (m ≫= k).
Proof.
  intros Hk w b w'. rewrite bind_run.
  destruct (m w) as [[a|e] w1]; [apply Hk | intros [=]].
Qed.

Ltac exiting :=
  repeat first
    [ progress intros
    | apply exits_bind
    | match goal with
      | |- exits _ (if ?b then _ else _) => destruct b
      end
    | apply exits_ret; solve [auto]
    | apply exits_raise ].

(** [list_assistants], [get_assistant] and [update_assistant_idle_messages]
    only ever return 0 or 1. *)
Lemma list_assistants_exits remote key url :
  exits zero_or_one (list_assistants remote key url).
Proof. unfold list_assistants, zero_or_one. exiting. Qed.

Lemma get_assistant_exits remote key url ident :
  exits zero_or_one (get_assistant remote key url ident).
Proof. unfold get_assistant, zero_or_one. exiting. Qed.

Lemma update_assistant_idle_messages_exits remote key url ident :
  exits zero_or_one (update_assistant_idle_messages remote key url ident).
Proof. unfold update_assistant_idle_messages, zero_or_one. exiting. Qed.

(** ** Running the operations step by step *)

Lemma bind_get_dict {B : Type} items key fallback (k : value → M B) (w : world) :
  (get (VDict items) key fallback ≫= k) w = k (default fallback (dict_get key items)) w.
Proof. reflexivity. Qed.

Lemma json_ok (resp : response) (v : value) :
  resp_json resp = Some v → json resp = mret v.
Proof. intros H. unfold json. by rewrite H. Qed.

Lemma status_ok (resp : response) :
  status_code resp = 200 → negb (status_code resp =? 200) = false.
Proof. intros ->. reflexivity. Qed.

Lemma status_bad (resp : response) :
  status_code resp ≠ 200 → negb (status_code resp =? 200) = true.
Proof. intros H. apply negb_true_iff. by apply Z.eqb_neq. Qed.

Lemma bind_assoc {A B C : Type} (m : M A) (k : A → M B) (h : B → M C) (w : world) :
  ((m ≫= k) ≫= h) w = (m ≫= λ a, k a ≫= h) w.
Proof. rewrite !bind_run. by destruct (m w) as [[a|e] w1]. Qed.

Lemma or_else_truthy (a : value) (b : M value) :
  truthy a = true → or_else a b = mret a.
Proof. intros H. unfold or_else. by rewrite H. Qed.

Lemma or_else_falsy (a : value) (b : M value) :
  truthy a = false → or_else a b = b.
Proof. intros H. unfold or_else. by rewrite H. Qed.

Ltac run :=
  repeat first
    [ rewrite bind_assoc
    | rewrite bind_ret
    | rewrite bind_print
    | rewrite bind_raise
    | rewrite bind_get_dict
    | progress cbv beta ].

Lemma silent_after {A : Type} (m : M A) (w : world) (r : request) :
  silent m →
  calls (m (World (stdout w) (calls w ++ [r]))).2 = (calls w ++ [r])%list.
Proof. intros H. by rewrite H. Qed.

Lemma show_assistant_run (entry : value) (w : world) :
  show_assistant entry w = (Returned tt, World (stdout w ++ card entry)%list (calls w)).
Proof.
  unfold show_assistant, card.
  destruct entry; cbn [is_dict]; run; unfold print; cbn [stdout calls];
    by rewrite <- !app_assoc.
Qed.

Lemma for_each_show_run (entries : list value) (w : world) :
  for_each entries show_assistant w =
  (Returned tt, World (stdout w ++ concat (card <$> entries)) (calls w)).
Proof.
  revert w. induction entries as [|entry rest IH]; intros w.
  - cbn. rewrite app_nil_r. by destruct w.
  - cbn [for_each]. rewrite bind_run, show_assistant_run, IH.
    cbn [stdout calls fmap list_fmap concat]. by rewrite <- app_assoc.
Qed.

(** The loop of [list_assistants] once [assistants] is a list and the
    heading is out. *)
Lemma list_tail_run (entries : list value) (out : list text) (sent : list request) :
  (items ← iterate (VList entries);
   for_each items show_assistant;;
   mret 0)
    (World (out ++ [[Lit (nl ++ "=== Your Assistants ===")]]) sent) =
  (Returned 0, World (out ++ listing entries) sent).
Proof.
  cbn [iterate]. run. rewrite bind_run, for_each_show_run.
  unfold listing. cbn [stdout calls]. by rewrite <- app_assoc.
Qed.

(** ** [list_assistants] *)

Section ListAssistants.

Context (remote : request → option response) (key url : string).

Lemma list_assistants_calls (w : world) :
  calls (list_assistants remote key url w).2 = (calls w ++ [list_call key url])%list.
Proof.
  unfold list_assistants, requests_get, list_call. rewrite bind_send.
  destruct (remote _) as [resp|]; [|done].
  apply silent_after. silence.
Qed.

Lemma list_assistants_error (w : world) (resp : response) :
  remote (list_call key url) = Some resp →
  status_code resp ≠ 200 →
  list_assistants remote key url w =
  (Returned 1,
   World (stdout w ++ [error_text resp]) (calls w ++ [list_call key url])).
Proof.
  intros Hresp Hstatus. unfold list_call in Hresp.
  unfold list_assistants, requests_get. rewrite bind_send, Hresp.
  rewrite (status_bad _ Hstatus). by run.
Qed.

(** A bare array is listed as it is. *)
Lemma list_assistants_array (w : world) (resp : response) (entries : list value) :
  remote (list_call key url) = Some resp →
  status_code resp = 200 →
  resp_json resp = Some (VList entries) →
  lists remote key url w entries.
Proof.
  intros Hresp Hstatus Hjson. unfold lists, list_call in *.
  unfold list_assistants, requests_get. rewrite bind_send, Hresp.
  rewrite (status_ok _ Hstatus), (json_ok _ _ Hjson). run.
  cbn [is_list]. run. cbn [stdout calls]. by rewrite list_tail_run.
Qed.

(** An object is listed through the first truthy one of its [assistants]
    and [data] fields, when that is an array. *)
Lemma list_assistants_object (w : world) (resp : response)
    (items : list (string * value)) (entries : list value) :
  remote (list_call key url) = Some resp →
  status_code resp = 200 →
  resp_json resp = Some (VDict items) →
  or_ (default VNone (dict_get "assistants" items))
      (or_ (default VNone (dict_get "data" items)) (VList [])) = VList entries →
  lists remote key url w entries.
Proof.
  intros Hresp Hstatus Hjson Hpick. unfold lists, list_call in *.
  unfold list_assistants, requests_get. rewrite bind_send, Hresp.
  rewrite (status_ok _ Hstatus), (json_ok _ _ Hjson). run.
  cbn [is_list]. run. unfold or_ in Hpick.
  destruct (truthy (default VNone (dict_get "assistants" items))) eqn:Ha.
  - rewrite (or_else_truthy _ _ Ha). run.
    rewrite (or_else_truthy _ _ Ha). run.
    rewrite Hpick. cbn [stdout calls]. by rewrite list_tail_run.
  - rewrite (or_else_falsy _ _ Ha). run.
    destruct (truthy (default VNone (dict_get "data" items))) eqn:Hb.
    + rewrite (or_else_truthy _ _ Hb). run.
      rewrite Hpick. cbn [stdout calls]. by rewrite list_tail_run.
    + rewrite (or_else_falsy _ _ Hb). run.
      rewrite Hpick. cbn [stdout calls]. by rewrite list_tail_run.
Qed.

End ListAssistants.

(** ** [get_assistant] *)

Section GetAssistant.

Context (remote : request → option response) (key url ident : string).

Lemma get_assistant_calls (w : world) :
  calls (get_assistant remote key url ident w).2
  = (calls w ++ [get_call key url ident])%list.
Proof.
  unfold get_assistant, requests_get, get_call. rewrite bind_send.
  destruct (remote _) as [resp|]; [|done].
  apply silent_after. silence.
Qed.

Lemma get_assistant_error (w : world) (resp : response) :
  remote (get_call key url ident) = Some resp →
  status_code resp ≠ 200 →
  get_assistant remote key url ident w =
  (Returned 1,
   World (stdout w ++ [error_text resp]) (calls w ++ [get_call key url ident])).
Proof.
  intros Hresp Hstatus. unfold get_call in Hresp.
  unfold get_assistant, requests_get. rewrite bind_send, Hresp.
  rewrite (status_bad _ Hstatus). by run.
Qed.

(** On a JSON object whose message plan, defaulted to the empty dict, is a
    dict, the report ends with the idle block or with the notice according
    to the truth value of [idleMessages]. *)
Lemma get_assistant_report (w : world) (resp : response)
    (items plan : list (string * value)) :
  remote (get_call key url ident) = Some resp →
  status_code resp = 200 →
  resp_json resp = Some (VDict items) →
  default (VDict []) (dict_get "messagePlan" items) = VDict plan →
  get_assistant remote key url ident w =
  (Returned 0,
   World (stdout w ++ details items ++
            (if truthy (default VNone (dict_get "idleMessages" plan))
             then idle_block plan else [no_idle_notice]))
         (calls w ++ [get_call key url ident])).
Proof.
  intros Hresp Hstatus Hjson Hplan. unfold get_call in *.
  unfold get_assistant, requests_get. rewrite bind_send, Hresp.
  rewrite (status_ok _ Hstatus), (json_ok _ _ Hjson). run.
  rewrite Hplan. run.
  destruct (truthy (default VNone (dict_get "idleMessages" plan)));
    run; unfold details, idle_block, no_idle_notice; cbn [stdout calls];
    by rewrite <- !app_assoc.
Qed.

End GetAssistant.

(** ** [update_assistant_idle_messages] *)

Section UpdateIdle.

Context (remote : request → option response) (key url ident : string).

Lemma update_assistant_idle_messages_calls (w : world) :
  calls (update_assistant_idle_messages remote key url ident w).2
  = (calls w ++ [patch_call key url ident])%list.
Proof.
  unfold update_assistant_idle_messages, requests_patch, patch_call. run.
  rewrite bind_send. cbn [stdout calls].
  destruct (remote _) as [resp|]; [|done].
  apply (silent_after _ (World _ (calls w))). silence.
Qed.

Lemma update_assistant_idle_messages_error (w : world) (resp : response) :
  remote (patch_call key url ident) = Some resp →
  status_code resp ≠ 200 →
  update_assistant_idle_messages remote key url ident w =
  (Returned 1,
   World (stdout w ++
            [ [Lit (nl ++ "Updating assistant "); Fmt (VStr ident);
               Lit " with idle messages..."];
              error_text resp ])
         (calls w ++ [patch_call key url ident])).
Proof.
  intros Hresp Hstatus. unfold patch_call in *.
  unfold update_assistant_idle_messages, requests_patch. run.
  rewrite bind_send, Hresp. rewrite (status_bad _ Hstatus). run.
  unfold mret, M_ret. cbn [stdout calls]. by rewrite <- !app_assoc.
Qed.

Lemma update_assistant_idle_messages_ok (w : world) (resp : response) (updated : value) :
  remote (patch_call key url ident) = Some resp →
  status_code resp = 200 →
  resp_json resp = Some updated →
  update_assistant_idle_messages remote key url ident w =
  (Returned 0,
   World (stdout w ++
            [ [Lit (nl ++ "Updating assistant "); Fmt (VStr ident);
               Lit " with idle messages..."];
              [Lit "✅ Successfully updated assistant!"];
              [Lit "Timeline: 10s → First prompt, 20s → Second prompt, 30s → End call"] ])
         (calls w ++ [patch_call key url ident])).
Proof.
  intros Hresp Hstatus Hjson. unfold patch_call in *.
  unfold update_assistant_idle_messages, requests_patch. run.
  rewrite bind_send, Hresp.
  rewrite (status_ok _ Hstatus), (json_ok _ _ Hjson). run.
  unfold mret, M_ret. cbn [stdout calls]. by rewrite <- !app_assoc.
Qed.

End UpdateIdle.

(** ** [main] *)

Section Main.

Context (remote : request → option response).
Context (environ : gmap string string) (argv : list string).

(** [main] is the selected operation on the resolved inputs: the two tests
    of [assistant_id] under [--get] and [--update-idle], and the closing
    [usage()], are never reached. *)
Lemma main_selection :
  main remote environ argv =
  match selection environ argv with
  | None => refuse
  | Some op =>
      perform remote op (the (api_key environ argv)) (api_url environ)
        (the (assistant_id environ argv))
  end.
Proof.
  unfold main, selection, refuse.
  destruct (not_ (api_key environ argv)); [done|].
  destruct (in_argv argv "--list" || list_requested environ
            || not_ (assistant_id environ argv)) eqn:Hlist; [done|].
  apply orb_false_elim in Hlist as [_ ->]. cbn [negb].
  by destruct (in_argv argv "--get"), (in_argv argv "--update-idle").
Qed.

Lemma list_requested_spec :
  list_requested environ = true ↔
  ∃ v, environ !! "VAPI_LIST" = Some v ∧ (v = "1" ∨ v = "true" ∨ v = "TRUE").
Proof.
  unfold list_requested. destruct (environ !! "VAPI_LIST") as [v|].
  - rewrite bool_decide_eq_true. split.
    + intros Hv. exists v. split; [done|].
      rewrite !elem_of_union, !elem_of_singleton in Hv. intuition.
    + intros (v' & [= <-] & Hv).
      rewrite !elem_of_union, !elem_of_singleton. intuition.
  - split; [done|]. by intros (v & [=] & _).
Qed.

Lemma selection_list :
  not_ (api_key environ argv) = false →
  selection environ argv = Some OpList ↔ list_condition environ argv.
Proof.
  intros Hkey. unfold selection, list_condition. rewrite Hkey.
  rewrite <- list_requested_spec.
  destruct (in_argv argv "--list" || list_requested environ
            || not_ (assistant_id environ argv)) eqn:Hlist.
  - split; [|done]. intros _.
    apply orb_true_iff in Hlist as [Hlist|]; [|by auto].
    apply orb_true_iff in Hlist as [Hflag|]; [|by auto].
    left. by apply bool_decide_eq_true in Hflag.
  - apply orb_false_elim in Hlist as [Hlist Hid].
    apply orb_false_elim in Hlist as [Hflag Henv].
    apply bool_decide_eq_false in Hflag.
    split; [by repeat case_match|].
    intros [?|[?|?]]; congruence.
Qed.

Lemma selection_none :
  selection environ argv = None ↔ not_ (api_key environ argv) = true.
Proof.
  unfold selection. destruct (not_ (api_key environ argv)); [done|].
  split; [|done]. by repeat case_match.
Qed.

Lemma refuse_run (w : world) :
  refuse w =
  (Returned 2, World (stdout w ++ [[Lit "❌ API key required"]; usage_text]) (calls w)).
Proof.
  unfold refuse, usage. run. unfold mret, M_ret. cbn [stdout calls].
  by rewrite <- app_assoc.
Qed.

Lemma perform_calls (op : operation) (key url ident : string) (w : world) :
  calls (perform remote op key url ident w).2
  = (calls w ++ [call_of op key url ident])%list.
Proof.
  destruct op; cbn [perform call_of].
  - apply list_assistants_calls.
  - apply get_assistant_calls.
  - apply update_assistant_idle_messages_calls.
Qed.

Lemma perform_exits (op : operation) (key url ident : string) :
  exits zero_or_one (perform remote op key url ident).
Proof.
  destruct op; cbn [perform].
  - apply list_assistants_exits.
  - apply get_assistant_exits.
  - apply update_assistant_idle_messages_exits.
Qed.

(** The calls of a whole run. *)
Lemma main_calls (w : world) :
  calls (main remote environ argv w).2 =
  match selection environ argv with
  | None => calls w
  | Some op =>
      (calls w ++ [call_of op (the (api_key environ argv)) (api_url environ)
                     (the (assistant_id environ argv))])%list
  end.
Proof.
  rewrite main_selection. destruct (selection environ argv) as [op|].
  - apply perform_calls.
  - by rewrite refuse_run.
Qed.

(** Exit code 2 is the missing API key, and nothing else. *)
Lemma main_exit_2 (w : world) :
  (main remote environ argv w).1 = Returned 2 ↔ not_ (api_key environ argv) = true.
Proof.
  rewrite <- selection_none, main_selection.
  destruct (selection environ argv) as [op|].
  - split; [|done]. intros Hexit.
    destruct (perform _ _ _ _ _ w) as [o w'] eqn:Hrun. cbn in Hexit. subst o.
    apply perform_exits in Hrun. by destruct Hrun.
  - by rewrite refuse_run.
Qed.

End Main.

(** ** Runs that end in an exception *)

Section Exceptions.

Context (remote : request → option response) (key url ident : string).

(** A call that raises ends the run, the call having been made. *)
Lemma perform_transport_failure (op : operation) (w : world) :
  remote (call_of op key url ident) = None →
  perform remote op key url ident w =
  (Raised RequestException,
   World (stdout w ++ preamble op ident) (calls w ++ [call_of op key url ident])).
Proof.
  intros Hresp.
  destruct op; cbn [perform call_of preamble] in *;
    unfold list_call, get_call, patch_call in Hresp.
  - unfold list_assistants, requests_get. rewrite bind_send, Hresp.
    by rewrite app_nil_r.
  - unfold get_assistant, requests_get. rewrite bind_send, Hresp.
    by rewrite app_nil_r.
  - unfold update_assistant_idle_messages, requests_patch. run.
    by rewrite bind_send, Hresp.
Qed.

(** A status 200 with a body that is not JSON raises in [resp.json()]. *)
Lemma perform_not_json (op : operation) (w : world) (resp : response) :
  remote (call_of op key url ident) = Some resp →
  status_code resp = 200 →
  resp_json resp = None →
  (perform remote op key url ident w).1 = Raised JSONDecodeError.
Proof.
  intros Hresp Hstatus Hjson.
  destruct op; cbn [perform call_of] in *;
    unfold list_call, get_call, patch_call in Hresp.
  - unfold list_assistants, requests_get. rewrite bind_send, Hresp.
    rewrite (status_ok _ Hstatus). unfold json. by rewrite Hjson.
  - unfold get_assistant, requests_get. rewrite bind_send, Hresp.
    rewrite (status_ok _ Hstatus). unfold json. by rewrite Hjson.
  - unfold update_assistant_idle_messages, requests_patch. run.
    rewrite bind_send, Hresp.
    rewrite (status_ok _ Hstatus). unfold json. by rewrite Hjson.
Qed.

(** A JSON body that is neither an array nor an object has no [get]. *)
Lemma list_assistants_scalar (w : world) (resp : response) (data : value) :
  remote (list_call key url) = Some resp →
  status_code resp = 200 →
  resp_json resp = Some data →
  is_list data = false →
  is_dict data = false →
  list_assistants remote key url w =
  (Raised AttributeError, World (stdout w) (calls w ++ [list_call key url])).
Proof.
  intros Hresp Hstatus Hjson Hlist Hdict. unfold list_call in *.
  unfold list_assistants, requests_get. rewrite bind_send, Hresp.
  rewrite (status_ok _ Hstatus), (json_ok _ _ Hjson). run. rewrite Hlist.
  by destruct data.
Qed.

(** A [messagePlan] that is [null] is not replaced by the empty dict. *)
Lemma get_assistant_null_plan (w : world) (resp : response)
    (items : list (string * value)) :
  remote (get_call key url ident) = Some resp →
  status_code resp = 200 →
  resp_json resp = Some (VDict items) →
  dict_get "messagePlan" items = Some VNone →
  get_assistant remote key url ident w =
  (Raised AttributeError,
   World (stdout w ++ details items) (calls w ++ [get_call key url ident])).
Proof.
  intros Hresp Hstatus Hjson Hplan. unfold get_call in *.
  unfold get_assistant, requests_get. rewrite bind_send, Hresp.
  rewrite (status_ok _ Hstatus), (json_ok _ _ Hjson). run.
  rewrite Hplan. cbn [default from_option id get]. run.
  unfold details. cbn [stdout calls]. by rewrite <- !app_assoc.
Qed.

End Exceptions.

(** ** Whole runs on concrete inputs *)

Example run_update_idle :
  main (always (Response 200 "{}" (Some (VDict []))))
    {[ "VAPI_API_KEY" := "k"; "VAPI_ASSISTANT_ID" := "a1" ]}
    ["main.py"; "--update-idle"] quiet =
  (Returned 0,
   World [ [Lit (nl ++ "Updating assistant "); Fmt (VStr "a1");
            Lit " with idle messages..."];
           [Lit "✅ Successfully updated assistant!"];
           [Lit "Timeline: 10s → First prompt, 20s → Second prompt, 30s → End call"] ]
         [patch_call "k" "https://api.vapi.ai" "a1"]).
Proof. vm_compute. reflexivity. Qed.

Example run_list_beats_get :
  calls (main (always (Response 200 "[]" (Some (VList []))))
           {[ "VAPI_API_KEY" := "k" ]} ["main.py"; "k2"; "a1"; "--get"; "--list"]
           quiet).2 =
  [list_call "k" "https://api.vapi.ai"].
Proof. vm_compute. reflexivity. Qed.

Example run_positional :
  calls (main (always (Response 404 "no" None)) ∅ ["main.py"; "k2"; "a1"] quiet).2 =
  [get_call "k2" "https://api.vapi.ai" "a1"].
Proof. vm_compute. reflexivity. Qed.

Example run_url_override :
  calls (main (always (Response 404 "no" None))
           {[ "VAPI_API_KEY" := "k"; "VAPI_API_URL" := "http://localhost:8080/" ]}
           ["main.py"] quiet).2 =
  [Request GET "http://localhost:8080/assistant"
     {[ "Authorization" := "Bearer k" ]} None 30].
Proof. vm_compute. reflexivity. Qed.

Example run_strings_are_iterated :
  (list_assistants (always (Response 200 "{}" (Some (VDict [("data", VStr "ab")]))))
     "k" "https://api.vapi.ai" quiet).1 = Returned 0
  ∧ length (stdout (list_assistants
                      (always (Response 200 "{}" (Some (VDict [("data", VStr "ab")]))))
                      "k" "https://api.vapi.ai" quiet).2) = 7%nat.
Proof. vm_compute. done. Qed.

Example run_number_is_not_iterable :
  (list_assistants (always (Response 200 "{}" (Some (VDict [("data", VInt 5)]))))
     "k" "https://api.vapi.ai" quiet).1 = Raised TypeError.
Proof. vm_compute. reflexivity. Qed.

(** * The specification, claim by claim *)

(** ** Missing inputs *)

(** C5: when no API key is resolved, [main] prints the error and the usage
    text, returns 2 and makes no call. *)
Theorem main_without_api_key remote environ argv (w : world) :
  not_ (api_key environ argv) = true →
  main remote environ argv w =
  (Returned 2,
   World (stdout w ++ [[Lit "❌ API key required"]; usage_text]) (calls w)).
Proof.
  intros Hkey. apply selection_none in Hkey.
  by rewrite main_selection, Hkey, refuse_run.
Qed.

Lemma main_without_api_key_witness :
  main (always (Response 200 "[]" (Some (VList [])))) ∅ ["main.py"] quiet =
  (Returned 2, World [[Lit "❌ API key required"]; usage_text] []).
Proof. apply (main_without_api_key _ ∅ ["main.py"] quiet). reflexivity. Defined.

(** C1, at the inputs where the code departs from it: with a key, the flag
    [--get] (or [--update-idle]) and no assistant id, [main] calls the list
    endpoint once and does not return 2. *)
Theorem flag_without_assistant_id_lists remote (flag : string) :
  flag = "--get" ∨ flag = "--update-idle" →
  let run := main remote {[ "VAPI_API_KEY" := "k" ]} ["main.py"; flag] quiet in
  assistant_id {[ "VAPI_API_KEY" := "k" ]} ["main.py"; flag] = None
  ∧ calls run.2 =
      [Request GET "https://api.vapi.ai/assistant"
         {[ "Authorization" := "Bearer k" ]} None 30]
  ∧ run.1 ≠ Returned 2.
Proof.
  intros Hflag run. split; [by destruct Hflag as [-> | ->]|]. split.
  - unfold run. rewrite main_calls. by destruct Hflag as [-> | ->].
  - unfold run. rewrite main_exit_2. by destruct Hflag as [-> | ->].
Qed.

Lemma flag_without_assistant_id_lists_witness :
  calls (main (always (Response 200 "[]" (Some (VList []))))
           {[ "VAPI_API_KEY" := "k" ]} ["main.py"; "--get"] quiet).2 =
  [Request GET "https://api.vapi.ai/assistant"
     {[ "Authorization" := "Bearer k" ]} None 30].
Proof.
  apply (flag_without_assistant_id_lists
           (always (Response 200 "[]" (Some (VList [])))) "--get").
  left. reflexivity.
Defined.

(** ** HTTP status and exit code *)

(** C2, as the code has it: whatever the operation, a response whose status
    is not exactly 200 makes it print the status code and the raw body and
    return 1, and a response with status 200 and a readable body makes it
    return 0. *)
Theorem exit_code_by_status remote (op : operation) (key url ident : string)
    (w : world) (resp : response) :
  remote (call_of op key url ident) = Some resp →
  (status_code resp ≠ 200 →
   perform remote op key url ident w =
   (Returned 1,
    World (stdout w ++ preamble op ident ++
             [[Lit "Error "; Fmt (VInt (status_code resp)); Lit ": ";
               Fmt (VStr (resp_text resp))]])
          (calls w ++ [call_of op key url ident])))
  ∧ (status_code resp = 200 → readable op resp →
     (perform remote op key url ident w).1 = Returned 0).
Proof.
  intros Hresp. split.
  - intros Hstatus. destruct op; cbn [perform call_of preamble] in *.
    + by apply list_assistants_error.
    + by apply get_assistant_error.
    + by apply update_assistant_idle_messages_error.
  - intros Hstatus Hbody. destruct op; cbn [perform call_of readable] in *.
    + destruct Hbody as [entries [Hjson | (items & Hjson & Hpick)]].
      * by rewrite (list_assistants_array _ _ _ _ _ _ Hresp Hstatus Hjson).
      * by rewrite (list_assistants_object _ _ _ _ _ _ _ Hresp Hstatus Hjson Hpick).
    + destruct Hbody as (items & plan & Hjson & Hplan).
      by rewrite (get_assistant_report _ _ _ _ _ _ _ _ Hresp Hstatus Hjson Hplan).
    + destruct Hbody as [updated Hjson].
      by rewrite (update_assistant_idle_messages_ok _ _ _ _ _ _ _ Hresp Hstatus Hjson).
Qed.

Lemma exit_code_by_status_witness :
  perform (always (Response 404 "Not Found" None)) OpGet "k" "https://api.vapi.ai" "a1" quiet =
  (Returned 1,
   World [[Lit "Error "; Fmt (VInt 404); Lit ": "; Fmt (VStr "Not Found")]]
         [get_call "k" "https://api.vapi.ai" "a1"]).
Proof.
  apply (exit_code_by_status (always (Response 404 "Not Found" None)) OpGet
           "k" "https://api.vapi.ai" "a1" quiet (Response 404 "Not Found" None)).
  - reflexivity.
  - cbn. lia.
Defined.

(** C2 as stated fails: 201 is a 2xx status, and each operation answers it
    with exit code 1. *)
Lemma created_status_exits_1 :
  let created := Response 201 "{}" (Some (VDict [])) in
  200 ≤ status_code created < 300
  ∧ (list_assistants (always created) "k" "https://api.vapi.ai" quiet).1 = Returned 1
  ∧ (get_assistant (always created) "k" "https://api.vapi.ai" "a1" quiet).1 = Returned 1
  ∧ (update_assistant_idle_messages (always created) "k" "https://api.vapi.ai" "a1"
       quiet).1 = Returned 1.
Proof. cbn. repeat split; lia. Qed.

(** ** The update *)

(** C3: whatever the key, the URL, the assistant and the service,
    [update_assistant_idle_messages] makes exactly one call, a PATCH to
    [{base}/assistant/{assistant_id}] whose JSON body is the fixed payload. *)
Theorem update_idle_payload remote (key url ident : string) (w : world) :
  calls (update_assistant_idle_messages remote key url ident w).2 =
  (calls w ++
   [Request PATCH (rstrip_slash url ++ "/assistant/" ++ ident)%string
      {[ "Authorization" := ("Bearer " ++ key)%string;
         "Content-Type" := "application/json" ]}
      (Some (VDict [
         ("messagePlan", VDict [
            ("idleMessages", VList [VStr "Are you still there?"]);
            ("idleTimeoutSeconds", VInt 10);
            ("idleMessageMaxSpokenCount", VInt 2);
            ("idleMessageResetCountOnUserSpeechEnabled", VBool true) ]);
         ("silenceTimeoutSeconds", VInt 30) ]))
      30])%list.
Proof. apply update_assistant_idle_messages_calls. Qed.

(** [main] reaches the update exactly under [--update-idle] with an
    assistant id and none of the list triggers or [--get]. *)
Lemma main_update_idle remote environ argv :
  selection environ argv = Some OpUpdateIdle →
  main remote environ argv =
  update_assistant_idle_messages remote (the (api_key environ argv))
    (api_url environ) (the (assistant_id environ argv)).
Proof. intros Hsel. by rewrite main_selection, Hsel. Qed.

(** ** Which operation runs *)

(** The URL of one assistant is never the URL of the list. *)
Lemma item_url_not_list_url (base ident : string) :
  base ++ "/assistant/" ++ ident ≠ base ++ "/assistant".
Proof. intros Hurl. apply (inj (String.app _)) in Hurl. discriminate Hurl. Qed.

(** C4: with an API key, [main] runs [list_assistants] exactly when
    [--list] is among the arguments, or [VAPI_LIST] is one of ["1"],
    ["true"], ["TRUE"], or no assistant id is resolved; and a run of
    [list_assistants] makes exactly one call, a GET to [{base}/assistant]. *)
Theorem list_runs_iff remote environ argv :
  not_ (api_key environ argv) = false →
  ((∀ w, main remote environ argv w =
         list_assistants remote (the (api_key environ argv)) (api_url environ) w)
   ↔ "--list" ∈ argv
     ∨ (∃ v, environ !! "VAPI_LIST" = Some v ∧ (v = "1" ∨ v = "true" ∨ v = "TRUE"))
     ∨ not_ (assistant_id environ argv) = true)
  ∧ (∀ key url w,
       calls (list_assistants remote key url w).2 =
       (calls w ++
        [Request GET (rstrip_slash url ++ "/assistant")%string
           {[ "Authorization" := ("Bearer " ++ key)%string ]} None 30])%list).
Proof.
  intros Hkey. split; [|intros; apply list_assistants_calls].
  fold (list_condition environ argv). rewrite <- (selection_list _ _ Hkey).
  split.
  - intros Hsame. specialize (Hsame quiet).
    apply (f_equal (λ r, calls r.2)) in Hsame.
    rewrite main_calls, list_assistants_calls in Hsame.
    destruct (selection environ argv) as [op|]; [|discriminate Hsame].
    injection Hsame as Hcall. destruct op; [done| |].
    + apply (f_equal req_url) in Hcall. by apply item_url_not_list_url in Hcall.
    + apply (f_equal req_method) in Hcall. discriminate Hcall.
  - intros Hsel w. by rewrite main_selection, Hsel.
Qed.

Lemma list_runs_iff_witness :
  main (always (Response 200 "[]" (Some (VList []))))
    {[ "VAPI_API_KEY" := "k" ]} ["main.py"] quiet =
  list_assistants (always (Response 200 "[]" (Some (VList []))))
    "k" "https://api.vapi.ai" quiet.
Proof.
  assert (not_ (api_key {[ "VAPI_API_KEY" := "k" ]} ["main.py"]) = false) as Hkey
    by reflexivity.
  destruct (list_runs_iff (always (Response 200 "[]" (Some (VList []))))
              {[ "VAPI_API_KEY" := "k" ]} ["main.py"] Hkey) as [[_ Hruns] _].
  assert (not_ (assistant_id {[ "VAPI_API_KEY" := "k" ]} ["main.py"]) = true) as Hid
    by reflexivity.
  exact (Hruns (or_intror (or_intror Hid)) quiet).
Defined.

(** ** The listing *)

(** C6, as the code has it: after a status 200 a bare array is listed as it
    is; in an object the [assistants] field is listed when it is a
    non-empty array, else the [data] field when [assistants] is missing or
    falsy and [data] is a non-empty array, else nothing when both are
    missing or falsy. *)
Theorem list_shape_order remote (key url : string) (w : world) (resp : response) :
  remote (list_call key url) = Some resp →
  status_code resp = 200 →
  (∀ entries,
     resp_json resp = Some (VList entries) →
     lists remote key url w entries)
  ∧ (∀ items entry entries,
       resp_json resp = Some (VDict items) →
       dict_get "assistants" items = Some (VList (entry :: entries)) →
       lists remote key url w (entry :: entries))
  ∧ (∀ items entry entries,
       resp_json resp = Some (VDict items) →
       skipped items "assistants" →
       dict_get "data" items = Some (VList (entry :: entries)) →
       lists remote key url w (entry :: entries))
  ∧ (∀ items,
       resp_json resp = Some (VDict items) →
       skipped items "assistants" →
       skipped items "data" →
       lists remote key url w []).
Proof.
  intros Hresp Hstatus. repeat split.
  - intros entries Hjson. by eapply list_assistants_array.
  - intros items entry entries Hjson Ha.
    eapply list_assistants_object; [done..|]. by rewrite Ha.
  - intros items entry entries Hjson Ha Hb.
    eapply list_assistants_object; [done..|].
    unfold or_. unfold skipped in Ha. by rewrite Ha, Hb.
  - intros items Hjson Ha Hb.
    eapply list_assistants_object; [done..|].
    unfold or_. unfold skipped in Ha, Hb. by rewrite Ha, Hb.
Qed.

Lemma list_shape_order_witness :
  lists (always (Response 200 "{}" (Some body_assistants))) "k" "https://api.vapi.ai"
    quiet [entry_A].
Proof.
  destruct (list_shape_order (always (Response 200 "{}" (Some body_assistants)))
              "k" "https://api.vapi.ai" quiet
              (Response 200 "{}" (Some body_assistants)) eq_refl eq_refl)
    as (_ & Hassistants & _).
  exact (Hassistants [("assistants", VList [entry_A])] entry_A [] eq_refl eq_refl).
Defined.

(** C6 as stated fails: here the [assistants] field is present, and the
    entries listed are those of [data]. *)
Lemma present_assistants_not_listed :
  let items := [("assistants", VList []); ("data", VList [entry_A])] in
  let service := always (Response 200 "{}" (Some (VDict items))) in
  dict_get "assistants" items = Some (VList [])
  ∧ lists service "k" "https://api.vapi.ai" quiet [entry_A]
  ∧ ¬ lists service "k" "https://api.vapi.ai" quiet [].
Proof.
  intros items service. split; [done|].
  assert (lists service "k" "https://api.vapi.ai" quiet [entry_A]) as Hdata.
  { eapply list_assistants_object; done. }
  split; [done|]. unfold lists in *. rewrite Hdata. intros [= Hout].
Qed.

(** C7: the three shapes of the example, [{"assistants": [...]}],
    [{"data": [...]}] and the bare array, give the same run and the same
    printed lines, which read name A and id 1. *)
Theorem list_shape_independent remote (key url : string) (w : world)
    (resp : response) (body : value) :
  remote (list_call key url) = Some resp →
  status_code resp = 200 →
  resp_json resp = Some body →
  body ∈ [body_assistants; body_data; body_bare] →
  let shown :=
    [ [Lit (nl ++ "=== Your Assistants ===")];
      [Lit "Name: "; Fmt (VStr "A")];
      [Lit "ID:   "; Fmt (VStr "1")];
      [Lit "----------------------------------------"] ] in
  list_assistants remote key url w =
  (Returned 0, World (stdout w ++ shown) (calls w ++ [list_call key url]))
  ∧ render <$> shown =
    [ Some (nl ++ "=== Your Assistants ===");
      Some "Name: A";
      Some "ID:   1";
      Some "----------------------------------------" ].
Proof.
  intros Hresp Hstatus Hjson Hbody shown. split; [|done].
  change shown with (listing [entry_A]). fold (lists remote key url w [entry_A]).
  rewrite !elem_of_cons, elem_of_nil in Hbody.
  destruct Hbody as [-> | [-> | [-> | []]]].
  - eapply list_assistants_object; done.
  - eapply list_assistants_object; done.
  - eapply list_assistants_array; done.
Qed.

Lemma list_shape_independent_witness :
  stdout (list_assistants (always (Response 200 "{}" (Some body_data)))
            "k" "https://api.vapi.ai" quiet).2 =
  [ [Lit (nl ++ "=== Your Assistants ===")];
    [Lit "Name: "; Fmt (VStr "A")];
    [Lit "ID:   "; Fmt (VStr "1")];
    [Lit "----------------------------------------"] ].
Proof.
  assert (body_data ∈ [body_assistants; body_data; body_bare]) as Hbody
    by (right; left).
  destruct (list_shape_independent (always (Response 200 "{}" (Some body_data)))
              "k" "https://api.vapi.ai" quiet
              (Response 200 "{}" (Some body_data)) body_data
              eq_refl eq_refl eq_refl Hbody) as [Hrun _].
  exact (f_equal (λ r, stdout r.2) Hrun).
Defined.

(** ** The report of one assistant *)

(** C8: after a status 200 with a JSON object, [get_assistant] returns 0
    and ends its report with the notice, and no idle block, when
    [messagePlan] is missing, or is an object whose [idleMessages] is
    missing or an empty array; it ends the report with the messages, the
    timeout and the maximum count, and no notice, when [idleMessages] is a
    non-empty array. *)
Theorem idle_messages_report remote (key url ident : string) (w : world)
    (resp : response) (items : list (string * value)) :
  remote (get_call key url ident) = Some resp →
  status_code resp = 200 →
  resp_json resp = Some (VDict items) →
  ((dict_get "messagePlan" items = None
    ∨ ∃ plan, dict_get "messagePlan" items = Some (VDict plan)
              ∧ (dict_get "idleMessages" plan = None
                 ∨ dict_get "idleMessages" plan = Some (VList []))) →
   get_assistant remote key url ident w =
   (Returned 0,
    World (stdout w ++ details items ++
             [[Lit (nl ++ "⚠️  No idle messages configured")]])
          (calls w ++ [get_call key url ident])))
  ∧ (∀ plan message messages,
       dict_get "messagePlan" items = Some (VDict plan) →
       dict_get "idleMessages" plan = Some (VList (message :: messages)) →
       get_assistant remote key url ident w =
       (Returned 0,
        World (stdout w ++ details items ++
                 [ [Lit (nl ++ "Idle Messages Configuration:")];
                   [Lit "  Messages: "; Fmt (VList (message :: messages))];
                   [Lit "  Timeout: ";
                    Fmt (default VNone (dict_get "idleTimeoutSeconds" plan));
                    Lit " seconds"];
                   [Lit "  Max Count: ";
                    Fmt (default VNone (dict_get "idleMessageMaxSpokenCount" plan))] ])
              (calls w ++ [get_call key url ident])))
  ∧ (∀ plan, [Lit (nl ++ "⚠️  No idle messages configured")]
             ∉ (details items ++ idle_block plan)%list)
  ∧ [Lit (nl ++ "Idle Messages Configuration:")]
    ∉ (details items ++ [[Lit (nl ++ "⚠️  No idle messages configured")]])%list.
Proof.
  intros Hresp Hstatus Hjson. repeat split.
  - intros [Hplan | (plan & Hplan & Hidle)].
    + rewrite (get_assistant_report _ _ _ _ w resp items [] Hresp Hstatus Hjson);
        [done | by rewrite Hplan].
    + rewrite (get_assistant_report _ _ _ _ w resp items plan Hresp Hstatus Hjson);
        [|by rewrite Hplan].
      by destruct Hidle as [-> | ->].
  - intros plan message messages Hplan Hidle.
    rewrite (get_assistant_report _ _ _ _ w resp items plan Hresp Hstatus Hjson);
      [|by rewrite Hplan].
    unfold idle_block. by rewrite Hidle.
  - intros plan. unfold details, idle_block.
    rewrite elem_of_app, !elem_of_cons, !elem_of_nil.
    intros [Hin | Hin]; repeat destruct Hin as [Hin | Hin]; done.
  - unfold details.
    rewrite elem_of_app, !elem_of_cons, !elem_of_nil.
    intros [Hin | Hin]; repeat destruct Hin as [Hin | Hin]; done.
Qed.

Lemma idle_messages_report_witness :
  get_assistant
    (always (Response 200 "{}" (Some (VDict [("name", VStr "A"); ("id", VStr "1")]))))
    "k" "https://api.vapi.ai" "1" quiet =
  (Returned 0,
   World (details [("name", VStr "A"); ("id", VStr "1")] ++
            [[Lit (nl ++ "⚠️  No idle messages configured")]])
         [get_call "k" "https://api.vapi.ai" "1"]).
Proof.
  destruct (idle_messages_report
              (always (Response 200 "{}" (Some (VDict [("name", VStr "A"); ("id", VStr "1")]))))
              "k" "https://api.vapi.ai" "1" quiet
              (Response 200 "{}" (Some (VDict [("name", VStr "A"); ("id", VStr "1")])))
              [("name", VStr "A"); ("id", VStr "1")] eq_refl eq_refl eq_refl)
    as [Hnotice _].
  exact (Hnotice (or_introl eq_refl)).
Defined.

(** ** The bearer token *)

(** C9: every call a run of [main] makes carries the header
    [Authorization: Bearer <api_key>] for the resolved, non-empty API key;
    so a run without a key makes no call. *)
Theorem every_call_authorized remote environ argv (r : request) :
  r ∈ calls (main remote environ argv quiet).2 →
  not_ (api_key environ argv) = false
  ∧ ∃ key, api_key environ argv = Some key
           ∧ key ≠ ""
           ∧ req_headers r !! "Authorization" = Some ("Bearer " ++ key).
Proof.
  rewrite main_calls. intros Hcall.
  destruct (not_ (api_key environ argv)) eqn:Hkey.
  { apply selection_none in Hkey. rewrite Hkey in Hcall. by apply elem_of_nil in Hcall. }
  split; [done|].
  destruct (api_key environ argv) as [key|] eqn:Hsome; [|done].
  exists key. split; [done|]. split.
  { intros ->. discriminate Hkey. }
  destruct (selection environ argv) as [op|]; [|by apply elem_of_nil in Hcall].
  apply list_elem_of_singleton in Hcall as ->.
  destruct op; cbn [call_of list_call get_call patch_call req_headers the default];
    apply lookup_insert_eq.
Qed.

Lemma every_call_authorized_witness :
  ∃ key, api_key {[ "VAPI_API_KEY" := "k" ]} ["main.py"] = Some key
         ∧ key ≠ ""
         ∧ req_headers (list_call "k" "https://api.vapi.ai") !! "Authorization"
           = Some ("Bearer " ++ key).
Proof.
  assert (list_call "k" "https://api.vapi.ai"
          ∈ calls (main (always (Response 200 "[]" (Some (VList []))))
                     {[ "VAPI_API_KEY" := "k" ]} ["main.py"] quiet).2) as Hcall
    by (rewrite main_calls; left).
  exact (proj2 (every_call_authorized _ _ _ _ Hcall)).
Defined.

(** ** Flags taken for positional arguments *)

(** C10: with no key in the environment and the arguments [--list] alone,
    the API key resolves to the flag itself, and [main] calls the list
    endpoint with it instead of returning 2. *)
Theorem flag_taken_for_api_key remote :
  let run := main remote ∅ ["main.py"; "--list"] quiet in
  api_key ∅ ["main.py"; "--list"] = Some "--list"
  ∧ calls run.2 =
      [Request GET "https://api.vapi.ai/assistant"
         {[ "Authorization" := "Bearer --list" ]} None 30]
  ∧ run.1 ≠ Returned 2.
Proof.
  intros run. split; [done|]. split.
  - unfold run. by rewrite main_calls.
  - unfold run. by rewrite main_exit_2.
Qed.

(** * Further properties of the script *)

(** ** The base URL *)

Lemma rstrip_slash_app_slash (s : string) :
  rstrip_slash (s ++ "/") = rstrip_slash s.
Proof.
  induction s as [|c rest IH]; [done|].
  change (String c rest ++ "/") with (String c (rest ++ "/")).
  cbn [rstrip_slash]. by rewrite IH.
Qed.



(** A base URL given with one more trailing slash makes no difference to
    any of the three operations. *)
Theorem trailing_slash_irrelevant remote (op : operation) (key url ident : string) :
  perform remote op key (url ++ "/") ident = perform remote op key url ident.
Proof.
  destruct op; cbn [perform];
    unfold list_assistants, get_assistant, update_assistant_idle_messages;
    by rewrite rstrip_slash_app_slash.
Qed.



(** ** The calls of a run *)

(** A run of [main] makes no call when the API key is missing and exactly
    one call otherwise. *)
Theorem one_call_per_run remote environ argv :
  length (calls (main remote environ argv quiet).2) =
  if not_ (api_key environ argv) then 0%nat else 1%nat.
Proof.
  rewrite main_calls. destruct (not_ (api_key environ argv)) eqn:Hkey.
  - apply selection_none in Hkey. by rewrite Hkey.
  - destruct (selection environ argv) as [op|] eqn:Hsel; [done|].
    apply selection_none in Hsel. congruence.
Qed.

(** Every call of a run has a time-out of 30 seconds; a GET carries no body
    and no [Content-Type], a PATCH carries the fixed payload as JSON with
    [Content-Type: application/json]. *)
Theorem call_wire_format remote environ argv (r : request) :
  r ∈ calls (main remote environ argv quiet).2 →
  req_timeout r = 30
  ∧ match req_method r with
    | GET => req_json r = None ∧ req_headers r !! "Content-Type" = None
    | PATCH =>
        req_json r = Some update_data
        ∧ req_headers r !! "Content-Type" = Some "application/json"
    end.
Proof.
  rewrite main_calls. intros Hcall.
  destruct (selection environ argv) as [op|]; [|by apply elem_of_nil in Hcall].
  apply list_elem_of_singleton in Hcall as ->.
  destruct op; cbn [call_of list_call get_call patch_call req_timeout req_method
                    req_json req_headers]; (split; [done|]); (split; [done|]).
  - by apply lookup_singleton_ne.
  - by apply lookup_singleton_ne.
  - rewrite lookup_insert_ne; [|done]. apply lookup_singleton_eq.
Qed.

Lemma call_wire_format_witness :
  req_timeout (patch_call "k" "https://api.vapi.ai" "a1") = 30
  ∧ req_json (patch_call "k" "https://api.vapi.ai" "a1") = Some update_data
    ∧ req_headers (patch_call "k" "https://api.vapi.ai" "a1") !! "Content-Type"
      = Some "application/json".
Proof.
  assert (patch_call "k" "https://api.vapi.ai" "a1"
          ∈ calls (main (always (Response 200 "{}" (Some (VDict []))))
                     {[ "VAPI_API_KEY" := "k"; "VAPI_ASSISTANT_ID" := "a1" ]}
                     ["main.py"; "--update-idle"] quiet).2) as Hcall
    by (rewrite main_calls; left).
  exact (call_wire_format _ _ _ _ Hcall).
Defined.

(** ** Which operation runs, continued *)

Lemma call_of_inj (op op' : operation) (key url ident : string) :
  call_of op key url ident = call_of op' key url ident → op = op'.
Proof.
  intros Hcall.
  destruct op, op'; try done; cbn [call_of] in Hcall;
    first [ apply (f_equal req_method) in Hcall; discriminate Hcall
          | apply (f_equal req_url) in Hcall;
            first [ by apply item_url_not_list_url in Hcall
                  | symmetry in Hcall; by apply item_url_not_list_url in Hcall ] ].
Qed.

Lemma main_runs_op remote environ argv (op : operation) :
  (∀ w, main remote environ argv w =
        perform remote op (the (api_key environ argv)) (api_url environ)
          (the (assistant_id environ argv)) w)
  ↔ selection environ argv = Some op.
Proof.
  split.
  - intros Hsame. specialize (Hsame quiet).
    apply (f_equal (λ r, calls r.2)) in Hsame.
    rewrite main_calls, perform_calls in Hsame.
    destruct (selection environ argv) as [op'|]; [|discriminate Hsame].
    injection Hsame as Hcall. by rewrite (call_of_inj _ _ _ _ _ Hcall).
  - intros Hsel w. by rewrite main_selection, Hsel.
Qed.

Lemma selection_get environ argv :
  not_ (api_key environ argv) = false →
  selection environ argv = Some OpGet
  ↔ ¬ list_condition environ argv
    ∧ ("--get" ∈ argv ∨ "--update-idle" ∉ argv).
Proof.
  intros Hkey. rewrite <- (selection_list _ _ Hkey).
  unfold selection, in_argv. rewrite Hkey.
  destruct (_ || _ || _); [intuition congruence|].
  repeat case_bool_decide; intuition congruence.
Qed.

Lemma selection_update environ argv :
  not_ (api_key environ argv) = false →
  selection environ argv = Some OpUpdateIdle
  ↔ ¬ list_condition environ argv
    ∧ ("--get" ∉ argv) ∧ ("--update-idle" ∈ argv).
Proof.
  intros Hkey. rewrite <- (selection_list _ _ Hkey).
  unfold selection, in_argv. rewrite Hkey.
  destruct (_ || _ || _); [intuition congruence|].
  repeat case_bool_decide; intuition congruence.
Qed.

(** With an API key, [main] runs [get_assistant] exactly when nothing asks
    for the list, an assistant id is resolved, and either [--get] is among
    the arguments or [--update-idle] is not: [--get] wins over
    [--update-idle], and the report is what a run without flags does. *)
Theorem get_runs_iff remote environ argv :
  not_ (api_key environ argv) = false →
  (∀ w, main remote environ argv w =
        get_assistant remote (the (api_key environ argv)) (api_url environ)
          (the (assistant_id environ argv)) w)
  ↔ ¬ list_condition environ argv
    ∧ ("--get" ∈ argv ∨ "--update-idle" ∉ argv).
Proof.
  intros Hkey. rewrite <- (selection_get _ _ Hkey).
  apply (main_runs_op remote environ argv OpGet).
Qed.

Lemma get_runs_iff_witness :
  main (always (Response 404 "no" None))
    {[ "VAPI_API_KEY" := "k"; "VAPI_ASSISTANT_ID" := "a1" ]}
    ["main.py"; "--update-idle"; "--get"] quiet =
  get_assistant (always (Response 404 "no" None)) "k" "https://api.vapi.ai" "a1" quiet.
Proof.
  assert (not_ (api_key {[ "VAPI_API_KEY" := "k"; "VAPI_ASSISTANT_ID" := "a1" ]}
                  ["main.py"; "--update-idle"; "--get"]) = false) as Hkey
    by reflexivity.
  destruct (get_runs_iff (always (Response 404 "no" None))
              {[ "VAPI_API_KEY" := "k"; "VAPI_ASSISTANT_ID" := "a1" ]}
              ["main.py"; "--update-idle"; "--get"] Hkey) as [_ Hruns].
  refine (Hruns (conj _ (or_introl _)) quiet).
  - intros Hlist. apply (selection_list _ _ Hkey) in Hlist. discriminate Hlist.
  - do 2 right. left.
Defined.

(** With an API key, [main] runs the update, the only operation that
    changes anything, exactly when nothing asks for the list, an assistant
    id is resolved, [--update-idle] is among the arguments and [--get] is
    not. *)
Theorem update_runs_iff remote environ argv :
  not_ (api_key environ argv) = false →
  (∀ w, main remote environ argv w =
        update_assistant_idle_messages remote (the (api_key environ argv))
          (api_url environ) (the (assistant_id environ argv)) w)
  ↔ ¬ list_condition environ argv
    ∧ ("--get" ∉ argv) ∧ ("--update-idle" ∈ argv).
Proof.
  intros Hkey. rewrite <- (selection_update _ _ Hkey).
  apply (main_runs_op remote environ argv OpUpdateIdle).
Qed.

Lemma update_runs_iff_witness :
  main (always (Response 404 "no" None))
    {[ "VAPI_API_KEY" := "k"; "VAPI_ASSISTANT_ID" := "a1" ]}
    ["main.py"; "--update-idle"] quiet =
  update_assistant_idle_messages (always (Response 404 "no" None))
    "k" "https://api.vapi.ai" "a1" quiet.
Proof.
  assert (not_ (api_key {[ "VAPI_API_KEY" := "k"; "VAPI_ASSISTANT_ID" := "a1" ]}
                  ["main.py"; "--update-idle"]) = false) as Hkey
    by reflexivity.
  destruct (update_runs_iff (always (Response 404 "no" None))
              {[ "VAPI_API_KEY" := "k"; "VAPI_ASSISTANT_ID" := "a1" ]}
              ["main.py"; "--update-idle"] Hkey) as [_ Hruns].
  refine (Hruns (conj _ (conj _ _)) quiet).
  - intros Hlist. apply (selection_list _ _ Hkey) in Hlist. discriminate Hlist.
  - intros Hget.
    apply elem_of_cons in Hget as [Hget | Hget]; [discriminate Hget|].
    apply elem_of_cons in Hget as [Hget | Hget]; [discriminate Hget|].
    by apply elem_of_nil in Hget.
  - right. left.
Defined.

(** ** What an exit code tells *)

Lemma perform_error remote (op : operation) (key url ident : string)
    (w : world) (resp : response) :
  remote (call_of op key url ident) = Some resp →
  status_code resp ≠ 200 →
  perform remote op key url ident w =
  (Returned 1,
   World (stdout w ++ preamble op ident ++ [error_text resp])
         (calls w ++ [call_of op key url ident])).
Proof.
  intros Hresp Hstatus. destruct op; cbn [perform call_of preamble] in *.
  - by apply list_assistants_error.
  - by apply get_assistant_error.
  - by apply update_assistant_idle_messages_error.
Qed.

(** After a status 200 the only code an operation returns is 0, and only
    when the body was JSON. *)
Lemma perform_ok_returns remote (op : operation) (key url ident : string)
    (w w' : world) (resp : response) (code : Z) :
  remote (call_of op key url ident) = Some resp →
  status_code resp = 200 →
  perform remote op key url ident w = (Returned code, w') →
  code = 0 ∧ resp_json resp ≠ None.
Proof.
  intros Hresp Hstatus.
  destruct op; cbn [perform call_of] in *;
    unfold list_call, get_call, patch_call in Hresp;
    unfold list_assistants, get_assistant, update_assistant_idle_messages,
      requests_get, requests_patch; run;
    rewrite bind_send, Hresp, (status_ok _ Hstatus);
    (destruct (resp_json resp) as [body|] eqn:Hjson;
      [rewrite (json_ok _ _ Hjson) | unfold json; rewrite Hjson; run; discriminate]);
    (intros Hrun; split; [|done]; revert Hrun);
    match goal with
    | |- ?m ?w1 = _ → _ =>
        let Hex := fresh in
        assert (exits (λ z, z = 0) m) as Hex by exiting; apply Hex
    end.
Qed.

Lemma perform_returned remote (op : operation) (key url ident : string)
    (w : world) (code : Z) :
  (perform remote op key url ident w).1 = Returned code →
  ∃ resp,
    remote (call_of op key url ident) = Some resp
    ∧ (code = 0 ∧ status_code resp = 200 ∧ resp_json resp ≠ None
       ∨ code = 1 ∧ status_code resp ≠ 200).
Proof.
  intros Hrun. destruct (remote (call_of op key url ident)) as [resp|] eqn:Hresp.
  - exists resp. split; [done|].
    destruct (decide (status_code resp = 200)) as [Hstatus|Hstatus].
    + left. destruct (perform _ _ _ _ _ w) as [o w'] eqn:Hperform.
      cbn in Hrun. subst o.
      by destruct (perform_ok_returns _ _ _ _ _ _ _ _ _ Hresp Hstatus Hperform).
    + right. rewrite (perform_error _ _ _ _ _ _ _ Hresp Hstatus) in Hrun.
      by injection Hrun as <-.
  - exfalso. revert Hrun. destruct op; cbn [perform call_of] in *;
      unfold list_call, get_call, patch_call in Hresp;
      unfold list_assistants, get_assistant, update_assistant_idle_messages,
        requests_get, requests_patch; run;
      by rewrite bind_send, Hresp.
Qed.

(** The exit status of the process is 0, 1 or 2.  It is 2 exactly when the
    API key is missing; it is 0 only when the service answered the one call
    with status 200 and a JSON body. *)
Theorem script_exit_status remote environ argv :
  let status := (script remote environ argv).1 in
  (status = 0 ∨ status = 1 ∨ status = 2)
  ∧ (status = 2 ↔ not_ (api_key environ argv) = true)
  ∧ (status = 0 →
     ∃ op resp,
       selection environ argv = Some op
       ∧ remote (call_of op (the (api_key environ argv)) (api_url environ)
                   (the (assistant_id environ argv))) = Some resp
       ∧ status_code resp = 200
       ∧ resp_json resp ≠ None).
Proof.
  cbv zeta. unfold script. rewrite <- selection_none, main_selection.
  destruct (selection environ argv) as [op|].
  - destruct (perform _ _ _ _ _ quiet) as [[code|e] w'] eqn:Hrun; cbn.
    + pose proof (perform_returned remote op (the (api_key environ argv))
                    (api_url environ) (the (assistant_id environ argv))
                    quiet code) as Hcode.
      rewrite Hrun in Hcode. destruct (Hcode eq_refl) as (resp & Hresp & Hcases).
      split; [|split].
      * destruct Hcases as [(-> & _) | (-> & _)]; auto.
      * split; [|done]. intros ->. destruct Hcases as [([=] & _) | ([=] & _)].
      * intros ->. exists op, resp.
        destruct Hcases as [(_ & ? & ?) | ([=] & _)]. done.
    + split; [auto|]. split; [done|]. done.
  - rewrite refuse_run. cbn. split; [auto|]. split; [done|]. done.
Qed.

(** A run returns 1 only when the service answered with a status other
    than 200, and then the last thing printed is the error line: nothing of
    the body is read. *)
Theorem exit_code_1_means_error_status remote environ argv :
  (main remote environ argv quiet).1 = Returned 1 →
  ∃ op resp,
    selection environ argv = Some op
    ∧ remote (call_of op (the (api_key environ argv)) (api_url environ)
                (the (assistant_id environ argv))) = Some resp
    ∧ status_code resp ≠ 200
    ∧ stdout (main remote environ argv quiet).2
      = (preamble op (the (assistant_id environ argv)) ++ [error_text resp])%list.
Proof.
  rewrite main_selection. destruct (selection environ argv) as [op|].
  - intros Hrun. destruct (perform_returned _ _ _ _ _ _ _ Hrun) as (resp & Hresp & Hcases).
    exists op, resp. destruct Hcases as [([=] & _) | (_ & Hstatus)].
    repeat split; [done..|].
    by rewrite (perform_error _ _ _ _ _ _ _ Hresp Hstatus).
  - by rewrite refuse_run.
Qed.

Lemma exit_code_1_means_error_status_witness :
  ∃ op resp,
    selection {[ "VAPI_API_KEY" := "k" ]} ["main.py"] = Some op
    ∧ always (Response 401 "Unauthorized" None)
        (call_of op (the (api_key {[ "VAPI_API_KEY" := "k" ]} ["main.py"]))
           (api_url {[ "VAPI_API_KEY" := "k" ]})
           (the (assistant_id {[ "VAPI_API_KEY" := "k" ]} ["main.py"]))) = Some resp
    ∧ status_code resp ≠ 200
    ∧ stdout (main (always (Response 401 "Unauthorized" None))
                {[ "VAPI_API_KEY" := "k" ]} ["main.py"] quiet).2
      = (preamble op (the (assistant_id {[ "VAPI_API_KEY" := "k" ]} ["main.py"]))
         ++ [error_text resp])%list.
Proof.
  apply (exit_code_1_means_error_status (always (Response 401 "Unauthorized" None))
           {[ "VAPI_API_KEY" := "k" ]} ["main.py"]).
  reflexivity.
Defined.

(** ** Runs that end in an exception, continued *)

(** When the call itself raises, the exception leaves [main]: the call was
    attempted, nothing but the announcement of the update was printed, and
    the process ends with status 1. *)
Theorem transport_failure_propagates remote environ argv (op : operation) :
  selection environ argv = Some op →
  remote (call_of op (the (api_key environ argv)) (api_url environ)
            (the (assistant_id environ argv))) = None →
  main remote environ argv quiet =
  (Raised RequestException,
   World (preamble op (the (assistant_id environ argv)))
         [call_of op (the (api_key environ argv)) (api_url environ)
            (the (assistant_id environ argv))])
  ∧ (script remote environ argv).1 = 1.
Proof.
  intros Hsel Hresp. unfold script. rewrite main_selection, Hsel.
  by rewrite (perform_transport_failure _ _ _ _ _ _ Hresp).
Qed.

Lemma transport_failure_propagates_witness :
  main (λ _, None) {[ "VAPI_API_KEY" := "k" ]} ["main.py"] quiet =
  (Raised RequestException, World [] [list_call "k" "https://api.vapi.ai"])
  ∧ (script (λ _, None) {[ "VAPI_API_KEY" := "k" ]} ["main.py"]).1 = 1.
Proof.
  exact (transport_failure_propagates (λ _, None)
           {[ "VAPI_API_KEY" := "k" ]} ["main.py"] OpList eq_refl eq_refl).
Defined.

(** A status 200 with a body that is not JSON raises in [resp.json()]
    before anything more is printed; for the update this is after the PATCH
    went out, so the change is made and never confirmed. *)
Theorem not_json_raises remote (op : operation) (key url ident : string)
    (w : world) (resp : response) :
  remote (call_of op key url ident) = Some resp →
  status_code resp = 200 →
  resp_json resp = None →
  perform remote op key url ident w =
  (Raised JSONDecodeError,
   World (stdout w ++ preamble op ident) (calls w ++ [call_of op key url ident])).
Proof.
  intros Hresp Hstatus Hjson.
  destruct op; cbn [perform call_of preamble] in *;
    unfold list_call, get_call, patch_call in Hresp.
  - unfold list_assistants, requests_get. rewrite bind_send, Hresp.
    rewrite (status_ok _ Hstatus). unfold json. rewrite Hjson. run.
    by rewrite app_nil_r.
  - unfold get_assistant, requests_get. rewrite bind_send, Hresp.
    rewrite (status_ok _ Hstatus). unfold json. rewrite Hjson. run.
    by rewrite app_nil_r.
  - unfold update_assistant_idle_messages, requests_patch. run.
    rewrite bind_send, Hresp.
    rewrite (status_ok _ Hstatus). unfold json. rewrite Hjson. by run.
Qed.

Lemma not_json_raises_witness :
  perform (always (Response 200 "<html>ok</html>" None)) OpUpdateIdle
    "k" "https://api.vapi.ai" "a1" quiet =
  (Raised JSONDecodeError,
   World (preamble OpUpdateIdle "a1") [patch_call "k" "https://api.vapi.ai" "a1"]).
Proof.
  exact (not_json_raises (always (Response 200 "<html>ok</html>" None)) OpUpdateIdle
           "k" "https://api.vapi.ai" "a1" quiet
           (Response 200 "<html>ok</html>" None) eq_refl eq_refl eq_refl).
Defined.

Lemma list_assistants_scalar_witness :
  list_assistants (always (Response 200 "null" (Some VNone)))
    "k" "https://api.vapi.ai" quiet =
  (Raised AttributeError, World [] [list_call "k" "https://api.vapi.ai"]).
Proof.
  exact (list_assistants_scalar (always (Response 200 "null" (Some VNone)))
           "k" "https://api.vapi.ai" quiet (Response 200 "null" (Some VNone)) VNone
           eq_refl eq_refl eq_refl eq_refl eq_refl).
Defined.

(** The list once the value to iterate over is picked from an object. *)
Lemma list_assistants_pick remote (key url : string) (w : world) (resp : response)
    (items : list (string * value)) :
  remote (list_call key url) = Some resp →
  status_code resp = 200 →
  resp_json resp = Some (VDict items) →
  list_assistants remote key url w =
  (entries ← iterate (or_ (default VNone (dict_get "assistants" items))
                          (or_ (default VNone (dict_get "data" items)) (VList [])));
   for_each entries show_assistant;;
   mret 0)
    (World (stdout w ++ [[Lit (nl ++ "=== Your Assistants ===")]])
           (calls w ++ [list_call key url])).
Proof.
  intros Hresp Hstatus Hjson. unfold list_call in *.
  unfold list_assistants, requests_get. rewrite bind_send, Hresp.
  rewrite (status_ok _ Hstatus), (json_ok _ _ Hjson). run.
  cbn [is_list]. run. unfold or_.
  destruct (truthy (default VNone (dict_get "assistants" items))) eqn:Ha.
  - rewrite (or_else_truthy _ _ Ha). run.
    rewrite (or_else_truthy _ _ Ha). by run.
  - rewrite (or_else_falsy _ _ Ha). run.
    destruct (truthy (default VNone (dict_get "data" items))) eqn:Hb.
    + rewrite (or_else_truthy _ _ Hb). by run.
    + rewrite (or_else_falsy _ _ Hb). by run.
Qed.

(** When the field picked from an object is not an array, the loop still
    runs over it: an object gives one entry per key and a string one entry
    per character, each printed with name and id [None]; a number or
    [true] cannot be iterated and raises after the heading. *)
Theorem list_field_not_array remote (key url : string) (w : world) (resp : response)
    (items : list (string * value)) (picked : value) :
  remote (list_call key url) = Some resp →
  status_code resp = 200 →
  resp_json resp = Some (VDict items) →
  or_ (default VNone (dict_get "assistants" items))
      (or_ (default VNone (dict_get "data" items)) (VList [])) = picked →
  match picked with
  | VList _ => True
  | VDict fields =>
      list_assistants remote key url w =
      (Returned 0,
       World (stdout w ++ [[Lit (nl ++ "=== Your Assistants ===")]] ++
                concat ((λ _, [ [Lit "Name: "; Fmt VNone];
                                [Lit "ID:   "; Fmt VNone];
                                [Lit "----------------------------------------"] ])
                        <$> fields))
             (calls w ++ [list_call key url]))
  | VStr s =>
      list_assistants remote key url w =
      (Returned 0,
       World (stdout w ++ [[Lit (nl ++ "=== Your Assistants ===")]] ++
                concat ((λ _, [ [Lit "Name: "; Fmt VNone];
                                [Lit "ID:   "; Fmt VNone];
                                [Lit "----------------------------------------"] ])
                        <$> chars s))
             (calls w ++ [list_call key url]))
  | _ =>
      list_assistants remote key url w =
      (Raised TypeError,
       World (stdout w ++ [[Lit (nl ++ "=== Your Assistants ===")]])
             (calls w ++ [list_call key url]))
  end.
Proof.
  intros Hresp Hstatus Hjson Hpick.
  rewrite (list_assistants_pick _ _ _ _ _ _ Hresp Hstatus Hjson), Hpick.
  destruct picked; cbn [iterate]; run; try done.
  - rewrite bind_run, for_each_show_run. cbn [stdout calls].
    by rewrite <- app_assoc, <- list_fmap_compose.
  - rewrite bind_run, for_each_show_run. cbn [stdout calls].
    by rewrite <- app_assoc, <- list_fmap_compose.
Qed.

Lemma list_field_not_array_witness :
  list_assistants (always (Response 200 "{}" (Some (VDict [("data", VInt 5)]))))
    "k" "https://api.vapi.ai" quiet =
  (Raised TypeError,
   World [[Lit (nl ++ "=== Your Assistants ===")]] [list_call "k" "https://api.vapi.ai"]).
Proof.
  exact (list_field_not_array (always (Response 200 "{}" (Some (VDict [("data", VInt 5)]))))
           "k" "https://api.vapi.ai" quiet
           (Response 200 "{}" (Some (VDict [("data", VInt 5)])))
           [("data", VInt 5)] (VInt 5) eq_refl eq_refl eq_refl eq_refl).
Defined.

(** ** The report of one assistant, continued *)

Lemma get_assistant_bad_plan remote (key url ident : string) (w : world)
    (resp : response) (items : list (string * value)) (plan : value) :
  remote (get_call key url ident) = Some resp →
  status_code resp = 200 →
  resp_json resp = Some (VDict items) →
  default (VDict []) (dict_get "messagePlan" items) = plan →
  is_dict plan = false →
  get_assistant remote key url ident w =
  (Raised AttributeError,
   World (stdout w ++ details items) (calls w ++ [get_call key url ident])).
Proof.
  intros Hresp Hstatus Hjson Hplan Hdict. unfold get_call in *.
  unfold get_assistant, requests_get. rewrite bind_send, Hresp.
  rewrite (status_ok _ Hstatus), (json_ok _ _ Hjson). run.
  rewrite Hplan. destruct plan; try discriminate Hdict; cbn [get]; run;
    unfold details; cbn [stdout calls]; by rewrite <- !app_assoc.
Qed.

(** A body that is JSON but not an object gets the heading printed and
    then raises: only an object has the fields the report reads. *)
Theorem get_assistant_not_object remote (key url ident : string) (w : world)
    (resp : response) (body : value) :
  remote (get_call key url ident) = Some resp →
  status_code resp = 200 →
  resp_json resp = Some body →
  is_dict body = false →
  get_assistant remote key url ident w =
  (Raised AttributeError,
   World (stdout w ++ [[Lit (nl ++ "=== Assistant Details ===")]])
         (calls w ++ [get_call key url ident])).
Proof.
  intros Hresp Hstatus Hjson Hdict. unfold get_call in *.
  unfold get_assistant, requests_get. rewrite bind_send, Hresp.
  rewrite (status_ok _ Hstatus), (json_ok _ _ Hjson). run.
  by destruct body; try discriminate Hdict; cbn [get]; run.
Qed.

Lemma get_assistant_not_object_witness :
  get_assistant (always (Response 200 "[]" (Some (VList []))))
    "k" "https://api.vapi.ai" "a1" quiet =
  (Raised AttributeError,
   World [[Lit (nl ++ "=== Assistant Details ===")]]
         [get_call "k" "https://api.vapi.ai" "a1"]).
Proof.
  exact (get_assistant_not_object (always (Response 200 "[]" (Some (VList []))))
           "k" "https://api.vapi.ai" "a1" quiet
           (Response 200 "[]" (Some (VList []))) (VList [])
           eq_refl eq_refl eq_refl eq_refl).
Defined.

(** A [messagePlan] field that is present but not an object, [null]
    included, is not replaced by the empty plan: the name, id and silence
    time-out are printed and the look-up of [idleMessages] raises. *)
Theorem get_assistant_plan_not_object remote (key url ident : string) (w : world)
    (resp : response) (items : list (string * value)) (plan : value) :
  remote (get_call key url ident) = Some resp →
  status_code resp = 200 →
  resp_json resp = Some (VDict items) →
  dict_get "messagePlan" items = Some plan →
  is_dict plan = false →
  get_assistant remote key url ident w =
  (Raised AttributeError,
   World (stdout w ++
            [ [Lit (nl ++ "=== Assistant Details ===")];
              [Lit "Name: "; Fmt (default VNone (dict_get "name" items))];
              [Lit "ID: "; Fmt (default VNone (dict_get "id" items))];
              [Lit "Silence Timeout: ";
               Fmt (default (VInt 30) (dict_get "silenceTimeoutSeconds" items));
               Lit " seconds"] ])
         (calls w ++ [get_call key url ident])).
Proof.
  intros Hresp Hstatus Hjson Hplan Hdict.
  apply (get_assistant_bad_plan _ _ _ _ _ _ _ plan Hresp Hstatus Hjson);
    [by rewrite Hplan | done].
Qed.

Lemma get_assistant_plan_not_object_witness :
  (get_assistant
     (always (Response 200 "{}" (Some (VDict [("messagePlan", VList [])]))))
     "k" "https://api.vapi.ai" "a1" quiet).1 = Raised AttributeError.
Proof.
  exact (f_equal fst
           (get_assistant_plan_not_object
              (always (Response 200 "{}" (Some (VDict [("messagePlan", VList [])]))))
              "k" "https://api.vapi.ai" "a1" quiet
              (Response 200 "{}" (Some (VDict [("messagePlan", VList [])])))
              [("messagePlan", VList [])] (VList [])
              eq_refl eq_refl eq_refl eq_refl eq_refl)).
Defined.

(** Whatever the message plan, the report of a JSON object starts with the
    heading, the name, the id and the silence time-out, which reads 30 when
    the field [silenceTimeoutSeconds] is missing. *)
Theorem silence_timeout_default remote (key url ident : string) (w : world)
    (resp : response) (items : list (string * value)) :
  remote (get_call key url ident) = Some resp →
  status_code resp = 200 →
  resp_json resp = Some (VDict items) →
  dict_get "silenceTimeoutSeconds" items = None →
  ∃ rest,
    stdout (get_assistant remote key url ident w).2 =
    (stdout w ++
     [ [Lit (nl ++ "=== Assistant Details ===")];
       [Lit "Name: "; Fmt (default VNone (dict_get "name" items))];
       [Lit "ID: "; Fmt (default VNone (dict_get "id" items))];
       [Lit "Silence Timeout: "; Fmt (VInt 30); Lit " seconds"] ] ++ rest)%list.
Proof.
  intros Hresp Hstatus Hjson Hsilence.
  destruct (default (VDict []) (dict_get "messagePlan" items)) as [| | | | | |plan]
    eqn:Hplan.
  1-6: exists [];
    rewrite (get_assistant_bad_plan _ _ _ _ _ _ _ _ Hresp Hstatus Hjson Hplan eq_refl);
    unfold details; rewrite Hsilence; by rewrite app_nil_r.
  eexists.
  rewrite (get_assistant_report _ _ _ _ _ _ _ _ Hresp Hstatus Hjson Hplan).
  unfold details. by rewrite Hsilence.
Qed.

Lemma silence_timeout_default_witness :
  ∃ rest,
    stdout (get_assistant (always (Response 200 "{}" (Some (VDict []))))
              "k" "https://api.vapi.ai" "a1" quiet).2 =
    ([ [Lit (nl ++ "=== Assistant Details ===")];
       [Lit "Name: "; Fmt VNone];
       [Lit "ID: "; Fmt VNone];
       [Lit "Silence Timeout: "; Fmt (VInt 30); Lit " seconds"] ] ++ rest)%list.
Proof.
  exact (silence_timeout_default (always (Response 200 "{}" (Some (VDict []))))
           "k" "https://api.vapi.ai" "a1" quiet
           (Response 200 "{}" (Some (VDict []))) [] eq_refl eq_refl eq_refl eq_refl).
Defined.

(** ** What a run prints *)

Lemma prints_ret {A : Type} (P : text → Prop) (a : A) : prints P (mret a).
Proof. intros w. exists []. by rewrite app_nil_r. Qed.

Lemma prints_raise {A : Type} (P : text → Prop) (e : exn) : prints P (raise (A:=A) e).
Proof. intros w. exists []. by rewrite app_nil_r. Qed.

Lemma prints_print (P : text → Prop) (t : text) : P t → prints P (print t).
Proof. intros Ht w. exists [t]. split; [done|]. by constructor. Qed.

Lemma prints_send (P : text → Prop) remote (r : request) : prints P (send remote r).
Proof.
  intros w. exists []. unfold send.
  destruct (remote r); by rewrite app_nil_r.
Qed.

Lemma prints_bind {A B : Type} (P : text → Prop) (m : M A) (k : A → M B) :
  prints P m → (∀ a, prints P (k a)) → prints P (m ≫= k).
Proof.
  intros Hm Hk w. rewrite bind_run. destruct (Hm w) as (new & Hout & Hnew).
  destruct (m w) as [[a|e] w1]; cbn [snd] in *; [|by exists new].
  destruct (Hk a w1) as (new' & Hout' & Hnew').
  exists (new ++ new')%list. split.
  - by rewrite Hout', Hout, app_assoc.
  - by apply Forall_app.
Qed.

Lemma prints_get (P : text → Prop) (obj : value) (key : string) (fallback : value) :
  prints P (get obj key fallback).
Proof. destruct obj; first [apply prints_ret | apply prints_raise]. Qed.

Lemma prints_json (P : text → Prop) (resp : response) : prints P (json resp).
Proof. unfold json. destruct (resp_json resp); [apply prints_ret | apply prints_raise]. Qed.

Lemma prints_iterate (P : text → Prop) (v : value) : prints P (iterate v).
Proof. destruct v; first [apply prints_ret | apply prints_raise]. Qed.

Lemma prints_or_else (P : text → Prop) (a : value) (b : M value) :
  prints P b → prints P (or_else a b).
Proof. intros Hb. unfold or_else. destruct (truthy a); [apply prints_ret | done]. Qed.

Lemma prints_for_each {A : Type} (P : text → Prop) (xs : list A) (body : A → M unit) :
  (∀ x, prints P (body x)) → prints P (for_each xs body).
Proof.
  intros Hbody. induction xs as [|x rest IH]; cbn [for_each].
  - apply prints_ret.
  - apply prints_bind; [apply Hbody | intros _; apply IH].
Qed.

(** A text that is plainly not one of the three singled out. *)
Ltac report_line :=
  unfold report_line;
  repeat split;
  let H := fresh in intros H; vm_compute in H; discriminate H.

Ltac printing :=
  repeat first
    [ progress intros
    | apply prints_bind
    | match goal with
      | |- prints _ (if ?b then _ else _) => destruct b
      end
    | apply prints_ret
    | apply prints_raise
    | apply prints_send
    | apply prints_get
    | apply prints_json
    | apply prints_iterate
    | apply prints_or_else
    | apply prints_print; report_line ].

Lemma prints_show_assistant (entry : value) :
  prints report_line (show_assistant entry).
Proof. unfold show_assistant. printing. Qed.

Lemma perform_prints remote (op : operation) (key url ident : string) :
  prints report_line (perform remote op key url ident).
Proof.
  destruct op; cbn [perform];
    unfold list_assistants, get_assistant, update_assistant_idle_messages,
      requests_get, requests_patch, error_text;
    printing.
  apply prints_for_each. apply prints_show_assistant.
Qed.

(** No run prints the complaint that [VAPI_ASSISTANT_ID] is required, nor
    the hint to run [--list] first: the two places that print them are
    never reached. *)
Theorem never_demands_assistant_id remote environ argv (t : text) :
  t ∈ stdout (main remote environ argv quiet).2 →
  t ≠ [Lit "❌ VAPI_ASSISTANT_ID required"]
  ∧ t ≠ [Lit "First run with --list to find your assistant ID"].
Proof.
  rewrite main_selection. destruct (selection environ argv) as [op|].
  - destruct (perform_prints remote op (the (api_key environ argv))
                (api_url environ) (the (assistant_id environ argv)) quiet)
      as (new & -> & Hnew).
    intros Ht. rewrite Forall_forall in Hnew.
    destruct (Hnew t Ht) as (? & ? & _). done.
  - rewrite refuse_run. cbn [stdout quiet app snd].
    intros Ht.
    apply elem_of_cons in Ht as [-> | Ht]; [split; intros [=]|].
    apply list_elem_of_singleton in Ht as ->.
    split; intros H; vm_compute in H; discriminate H.
Qed.

Lemma never_demands_assistant_id_witness :
  [Lit (nl ++ "=== Your Assistants ===")] ≠ [Lit "❌ VAPI_ASSISTANT_ID required"]
  ∧ [Lit (nl ++ "=== Your Assistants ===")]
    ≠ [Lit "First run with --list to find your assistant ID"].
Proof.
  apply (never_demands_assistant_id (always (Response 200 "[]" (Some (VList []))))
           {[ "VAPI_API_KEY" := "k" ]} ["main.py"; "--get"]).
  vm_compute. left.
Defined.

(** The usage text is printed exactly when the API key is missing: the
    closing [usage()] of [main] is never reached. *)
Theorem usage_only_without_key remote environ argv :
  usage_text ∈ stdout (main remote environ argv quiet).2
  ↔ not_ (api_key environ argv) = true.
Proof.
  rewrite <- selection_none, main_selection.
  destruct (selection environ argv) as [op|].
  - split; [|done].
    destruct (perform_prints remote op (the (api_key environ argv))
                (api_url environ) (the (assistant_id environ argv)) quiet)
      as (new & -> & Hnew).
    intros Ht. rewrite Forall_forall in Hnew.
    by destruct (Hnew _ Ht) as (_ & _ & ?).
  - rewrite refuse_run. split; [done|]. intros _. cbn [stdout quiet app snd].
    right. left.
Qed.

(** On success the update prints its announcement, a confirmation and the
    fixed timeline; the JSON the service sends back is decoded and not
    used. *)
Theorem update_success_report remote (key url ident : string) (w : world)
    (resp : response) (updated : value) :
  remote (patch_call key url ident) = Some resp →
  status_code resp = 200 →
  resp_json resp = Some updated →
  update_assistant_idle_messages remote key url ident w =
  (Returned 0,
   World (stdout w ++
            [ [Lit (nl ++ "Updating assistant "); Fmt (VStr ident);
               Lit " with idle messages..."];
              [Lit "✅ Successfully updated assistant!"];
              [Lit "Timeline: 10s → First prompt, 20s → Second prompt, 30s → End call"] ])
         (calls w ++ [patch_call key url ident])).
Proof. apply update_assistant_idle_messages_ok. Qed.

Lemma update_success_report_witness :
  (update_assistant_idle_messages
     (always (Response 200 "{}" (Some (VDict [("id", VStr "a1")]))))
     "k" "https://api.vapi.ai" "a1" quiet).1 = Returned 0.
Proof.
  exact (f_equal fst
           (update_success_report
              (always (Response 200 "{}" (Some (VDict [("id", VStr "a1")]))))
              "k" "https://api.vapi.ai" "a1" quiet
              (Response 200 "{}" (Some (VDict [("id", VStr "a1")])))
              (VDict [("id", VStr "a1")]) eq_refl eq_refl eq_refl)).
Defined.

(** Entries of a bare array that are not objects are listed all the same,
    each with name and id [None]. *)
Theorem list_non_object_entries remote (key url : string) (w : world)
    (resp : response) (entries : list value) :
  remote (list_call key url) = Some resp →
  status_code resp = 200 →
  resp_json resp = Some (VList entries) →
  Forall (λ entry, is_dict entry = false) entries →
  list_assistants remote key url w =
  (Returned 0,
   World (stdout w ++ [[Lit (nl ++ "=== Your Assistants ===")]] ++
            concat ((λ _, [ [Lit "Name: "; Fmt VNone];
                            [Lit "ID:   "; Fmt VNone];
                            [Lit "----------------------------------------"] ])
                    <$> entries))
         (calls w ++ [list_call key url])).
Proof.
  intros Hresp Hstatus Hjson Hentries.
  rewrite (list_assistants_array _ _ _ _ _ _ Hresp Hstatus Hjson).
  unfold listing. do 4 f_equal. clear Hjson.
  induction Hentries as [|entry rest Hentry _ IH]; [done|].
  cbn [fmap list_fmap concat]. rewrite IH. by destruct entry.
Qed.

Lemma list_non_object_entries_witness :
  list_assistants (always (Response 200 "[1]" (Some (VList [VInt 1]))))
    "k" "https://api.vapi.ai" quiet =
  (Returned 0,
   World [ [Lit (nl ++ "=== Your Assistants ===")];
           [Lit "Name: "; Fmt VNone];
           [Lit "ID:   "; Fmt VNone];
           [Lit "----------------------------------------"] ]
         [list_call "k" "https://api.vapi.ai"]).
Proof.
  assert (Forall (λ entry, is_dict entry = false) [VInt 1]) as Hentries
    by (by constructor).
  exact (list_non_object_entries (always (Response 200 "[1]" (Some (VList [VInt 1]))))
           "k" "https://api.vapi.ai" quiet
           (Response 200 "[1]" (Some (VList [VInt 1]))) [VInt 1]
           eq_refl eq_refl eq_refl Hentries).
Defined.

(** ** Environment and arguments *)

(** A non-empty [VAPI_API_KEY] in the environment is the key of every
    call, whatever the arguments are. *)
Theorem environment_key_wins remote environ argv (key : string) (r : request) :
  environ !! "VAPI_API_KEY" = Some key →
  key ≠ "" →
  r ∈ calls (main remote environ argv quiet).2 →
  req_headers r !! "Authorization" = Some ("Bearer " ++ key).
Proof.
  intros Henv Hkey. rewrite main_calls.
  assert (api_key environ argv = Some key) as Hresolved.
  { unfold api_key, or_str, not_. rewrite Henv.
    by destruct (String.eqb_spec key ""). }
  rewrite Hresolved.
  destruct (selection environ argv) as [op|]; intros Hcall;
    [|by apply elem_of_nil in Hcall].
  apply list_elem_of_singleton in Hcall as ->.
  destruct op; cbn [call_of list_call get_call patch_call req_headers the default];
    apply lookup_insert_eq.
Qed.

Lemma environment_key_wins_witness :
  req_headers (list_call "k" "https://api.vapi.ai") !! "Authorization"
  = Some "Bearer k".
Proof.
  assert (list_call "k" "https://api.vapi.ai"
          ∈ calls (main (always (Response 200 "[]" (Some (VList []))))
                     {[ "VAPI_API_KEY" := "k" ]} ["main.py"; "other-key"] quiet).2)
    as Hcall by (rewrite main_calls; left).
  assert ("k" ≠ "") as Hkey by discriminate.
  exact (environment_key_wins _ {[ "VAPI_API_KEY" := "k" ]}
           ["main.py"; "other-key"] "k" _ eq_refl Hkey Hcall).
Defined.

(** An empty [VAPI_API_KEY] or [VAPI_ASSISTANT_ID] in the environment is
    the same as none: the run is that of the environment without it, so
    the positional argument is used. *)
Theorem empty_value_is_unset remote environ argv (name : string) :
  name = "VAPI_API_KEY" ∨ name = "VAPI_ASSISTANT_ID" →
  environ !! name = Some "" →
  main remote environ argv = main remote (delete name environ) argv.
Proof.
  intros Hname Hempty.
  assert (api_key (delete name environ) argv = api_key environ argv
          ∧ assistant_id (delete name environ) argv = assistant_id environ argv
          ∧ api_url (delete name environ) = api_url environ
          ∧ list_requested (delete name environ) = list_requested environ)
    as (Hkey & Hid & Hurl & Hlist).
  { unfold api_key, assistant_id, api_url, list_requested.
    destruct Hname as [-> | ->].
    - rewrite lookup_delete_eq, Hempty, !lookup_delete_ne by done. done.
    - rewrite lookup_delete_eq, Hempty, !lookup_delete_ne by done. done. }
  unfold main. by rewrite Hkey, Hid, Hurl, Hlist.
Qed.

Lemma empty_value_is_unset_witness :
  main (always (Response 404 "no" None))
    {[ "VAPI_API_KEY" := "" ]} ["main.py"; "k2"]
  = main (always (Response 404 "no" None))
      (delete "VAPI_API_KEY" {[ "VAPI_API_KEY" := "" ]}) ["main.py"; "k2"].
Proof.
  exact (empty_value_is_unset (always (Response 404 "no" None))
           {[ "VAPI_API_KEY" := "" ]} ["main.py"; "k2"] "VAPI_API_KEY"
           (or_introl eq_refl) eq_refl).
Defined.

(** An empty [VAPI_API_URL] is not replaced by the default base URL: the
    URL of the call is then the bare endpoint path. *)
Theorem empty_api_url_kept remote environ argv (r : request) :
  environ !! "VAPI_API_URL" = Some "" →
  r ∈ calls (main remote environ argv quiet).2 →
  ∃ op, selection environ argv = Some op
        ∧ req_url r = endpoint op (the (assistant_id environ argv)).
Proof.
  intros Hurl. rewrite main_calls.
  assert (api_url environ = "") as -> by (unfold api_url; by rewrite Hurl).
  destruct (selection environ argv) as [op|]; intros Hcall;
    [|by apply elem_of_nil in Hcall].
  apply list_elem_of_singleton in Hcall as ->.
  exists op. split; [done|]. by destruct op.
Qed.

Lemma empty_api_url_kept_witness :
  ∃ op, selection {[ "VAPI_API_KEY" := "k"; "VAPI_API_URL" := "" ]} ["main.py"] = Some op
        ∧ req_url (list_call "k" "")
          = endpoint op (the (assistant_id
                                {[ "VAPI_API_KEY" := "k"; "VAPI_API_URL" := "" ]}
                                ["main.py"])).
Proof.
  assert (list_call "k" ""
          ∈ calls (main (always (Response 404 "no" None))
                     {[ "VAPI_API_KEY" := "k"; "VAPI_API_URL" := "" ]}
                     ["main.py"] quiet).2)
    as Hcall by (rewrite main_calls; left).
  exact (empty_api_url_kept _ {[ "VAPI_API_KEY" := "k"; "VAPI_API_URL" := "" ]}
           ["main.py"] _ eq_refl Hcall).
Defined.
